(** * TinyPilot update results: [app/update_result.py]

    A shallow embedding of the module that reads and writes the JSON record
    of an update job, and the properties of [read] and [write].

    Python objects that the module mutates or creates ([Result] instances and
    the dictionary built in [write]) live in a heap of objects addressed by
    locations; the values stored in them are immutable trees.  Exceptions are
    results of type [outcome].  The module [iso8601] of the application, which
    [update_result.py] imports, is a pair of section variables; a model of it
    that follows the documented timestamp format is given in [Module iso8601]. *)

From Stdlib Require Import ZArith String Ascii List Bool Lia.
From Stdlib Require Import Floats.SpecFloat.
From stdpp Require Import base option list gmap strings.

Set Warnings "-register-all".
Open Scope string_scope.
Open Scope Z_scope.

(** ** Exceptions *)

(** The exception classes that the modelled code can raise, each with the
    text it carries. *)
Inductive exn :=
| JSONDecodeError (doc : string)
| AttributeError (msg : string)
| KeyError (key : string)
| TypeError (msg : string)
| ValueError (msg : string)
| OverflowError (msg : string).

(** A call either returns a value or raises. *)
Inductive outcome (A : Type) :=
| Returns (a : A)
| Raises (e : exn).
Arguments Returns {A} a.
Arguments Raises {A} e.

Definition outcome_bind {A B} (c : outcome A) (k : A → outcome B) : outcome B :=
  match c with
  | Returns a => k a
  | Raises e => Raises e
  end.

Notation "'let*' x ':=' c 'in' k" := (outcome_bind c (fun x => k))
  (at level 10, x pattern, c at level 100, k at level 200).

(** [mapM f l] runs [f] on the elements of [l] from left to right and stops
    at the first one that raises. *)
Definition mapM {A B} (f : A → outcome B) : list A → outcome (list B) :=
  fix go (l : list A) : outcome (list B) :=
    match l with
    | [] => Returns []
    | x :: l' =>
        let* y := f x in
        let* ys := go l' in
        Returns (y :: ys)
    end.

(** ** [datetime.datetime] *)

(** A [datetime.datetime] object.  [tzinfo] is [None] for a naive object and
    [Some off] for an aware one whose UTC offset is [off] seconds. *)
Record datetime := mkDatetime {
  year : Z;
  month : Z;
  day : Z;
  hour : Z;
  minute : Z;
  second : Z;
  microsecond : Z;
  tzinfo : option Z
}.

(** [datetime.timezone.utc] *)
Definition utc : option Z := Some 0.

Definition is_leap (y : Z) : bool :=
  (y mod 4 =? 0) && (negb (y mod 100 =? 0) || (y mod 400 =? 0)).

Definition days_in_month (y m : Z) : Z :=
  if m =? 2 then (if is_leap y then 29 else 28)
  else if (m =? 4) || (m =? 6) || (m =? 9) || (m =? 11) then 30
  else 31.

(** The ranges that the constructor of [datetime.datetime] enforces. *)
Definition datetime_valid (dt : datetime) : bool :=
  (1 <=? year dt) && (year dt <=? 9999) &&
  (1 <=? month dt) && (month dt <=? 12) &&
  (1 <=? day dt) && (day dt <=? days_in_month (year dt) (month dt)) &&
  (0 <=? hour dt) && (hour dt <? 24) &&
  (0 <=? minute dt) && (minute dt <? 60) &&
  (0 <=? second dt) && (second dt <? 60) &&
  (0 <=? microsecond dt) && (microsecond dt <? 1000000).

(** Year, month and day of the day that lies [days] days after 1970-01-01
    in the proleptic Gregorian calendar. *)
Definition civil_from_days (days : Z) : Z * Z * Z :=
  let z := days + 719468 in
  let era := z / 146097 in
  let doe := z - era * 146097 in
  let yoe := (doe - doe / 1460 + doe / 36524 - doe / 146096) / 365 in
  let doy := doe - (365 * yoe + yoe / 4 - yoe / 100) in
  let mp := (5 * doy + 2) / 153 in
  let d := doy - (153 * mp + 2) / 5 + 1 in
  let m := if mp <? 10 then mp + 3 else mp - 9 in
  (yoe + era * 400 + (if m <=? 2 then 1 else 0), m, d).

(** [datetime.datetime.utcfromtimestamp(t)] for a whole number of seconds:
    the naive datetime of the UTC time [t] seconds after the epoch. *)
Definition utcfromtimestamp (t : Z) : outcome datetime :=
  let '(y, m, d) := civil_from_days (t / 86400) in
  let s := t mod 86400 in
  if (1 <=? y) && (y <=? 9999) then
    Returns (mkDatetime y m d (s / 3600) (s mod 3600 / 60) (s mod 60) 0 None)
  else Raises (OverflowError "timestamp out of range for platform time_t").

(** ** JSON documents and Python values *)

(** A JSON document as the grammar of [json] reads it.  The members of an
    object are kept in the order of the text, repeated names included.  The
    limits of the interpreter (the depth of nesting, the number of digits of
    an integer) are no part of the model. *)
Inductive json :=
| JNull
| JBool (b : bool)
| JInt (n : Z)
| JFloat (x : spec_float)
| JString (s : string)
| JArray (items : list json)
| JObject (members : list (string * json)).

(** The text of a result file: either the text of a JSON document, or text
    that the JSON grammar rejects.  The decoder reads a text from left to
    right and completes the values that stand before the place where the
    grammar fails: [parsed] are these values, the outermost ones, in the
    order of the text.  For the text [{"a": {"n": 1}, ] they are the one
    object [{"n": 1}]; for a document followed by further text, the
    document. *)
Inductive json_text :=
| Doc (j : json)
| Malformed (parsed : list json) (text : string).

(** The Python values of the model: [None], bools, ints, floats, strings,
    lists, dicts with string keys, datetimes and bytes objects.  A [PDict]
    keeps its items in insertion order, with distinct keys.  A bytes object
    is a value that [json] does not serialize.  Other objects (dicts with
    keys that are no strings, tuples, objects that cannot be copied) are
    outside the model, and so is what the code does with them. *)
Inductive pyval :=
| PNone
| PBool (b : bool)
| PInt (n : Z)
| PFloat (x : spec_float)
| PStr (s : string)
| PList (items : list pyval)
| PDict (items : list (string * pyval))
| PDatetime (dt : datetime)
| PBytes (b : string).

(** ** [dict] *)

Definition dict := list (string * pyval).

(** [key in d] and [d.get(key)] *)
Fixpoint dict_get (d : dict) (key : string) : option pyval :=
  match d with
  | [] => None
  | (k, v) :: d' => if String.eqb k key then Some v else dict_get d' key
  end.

(** [d[key] = value]: an existing key keeps its position *)
Fixpoint dict_set (d : dict) (key : string) (value : pyval) : dict :=
  match d with
  | [] => [(key, value)]
  | (k, v) :: d' =>
      if String.eqb k key then (k, value) :: d'
      else (k, v) :: dict_set d' key value
  end.

(** [del d[key]] for a key of [d] *)
Fixpoint dict_del (d : dict) (key : string) : dict :=
  match d with
  | [] => []
  | (k, v) :: d' => if String.eqb k key then d' else (k, v) :: dict_del d' key
  end.

(** [dict(pairs)]: a later pair replaces the value of an earlier one with
    the same key. *)
Definition dict_of_pairs (pairs : list (string * pyval)) : dict :=
  fold_left (fun d kv => dict_set d kv.1 kv.2) pairs [].

(** [type(obj).__name__] *)
Definition type_name (obj : pyval) : string :=
  match obj with
  | PNone => "NoneType"
  | PBool _ => "bool"
  | PInt _ => "int"
  | PFloat _ => "float"
  | PStr _ => "str"
  | PList _ => "list"
  | PDict _ => "dict"
  | PDatetime _ => "datetime.datetime"
  | PBytes _ => "bytes"
  end.

(** [obj.get(key, default)]: only a dict has the method. *)
Definition py_get (obj : pyval) (key : string) (default : pyval) : outcome pyval :=
  match obj with
  | PDict d => Returns (from_option id default (dict_get d key))
  | _ => Raises (AttributeError
                   ("'" +:+ type_name obj +:+ "' object has no attribute 'get'"))
  end.

(** ** [json.load] and [json.dump] *)

(** The decoder of [json] with an [object_hook]: every object of the
    document, innermost first, is turned into a dict and replaced by what
    the hook returns for it. *)
Fixpoint json_decode (object_hook : dict → outcome pyval) (j : json) : outcome pyval :=
  match j with
  | JNull => Returns PNone
  | JBool b => Returns (PBool b)
  | JInt n => Returns (PInt n)
  | JFloat x => Returns (PFloat x)
  | JString s => Returns (PStr s)
  | JArray items =>
      let* values := mapM (json_decode object_hook) items in
      Returns (PList values)
  | JObject members =>
      let* pairs :=
        mapM (fun m => let* v := json_decode object_hook m.2 in Returns (m.1, v))
             members in
      object_hook (dict_of_pairs pairs)
  end.

(** [json.load(fp, cls=...)] for a decoder class that installs [object_hook].
    On malformed text the decoder has called the hook for every object that
    closes before the place of the error, so what a hook raises there comes
    before the error of the decoder. *)
Definition json_load (fp : json_text) (object_hook : dict → outcome pyval) : outcome pyval :=
  match fp with
  | Doc j => json_decode object_hook j
  | Malformed parsed text =>
      let* _ := mapM (json_decode object_hook) parsed in
      Raises (JSONDecodeError text)
  end.

(** The encoder of [json], on the values of the model, for an encoder class
    whose [default] method returns a string or the object it was given,
    which is what [_ResultEncoder.default] does.  An object that the encoder
    does not know (a datetime, a bytes object) is handed to [default]; a
    string that comes back is written as a string.  When the object itself
    comes back, the encoder finds the marker it holds for the object and
    raises. *)
Fixpoint json_encode (default : pyval → outcome pyval) (o : pyval) : outcome json :=
  match o with
  | PNone => Returns JNull
  | PBool b => Returns (JBool b)
  | PInt n => Returns (JInt n)
  | PFloat x => Returns (JFloat x)
  | PStr s => Returns (JString s)
  | PList items =>
      let* js := mapM (json_encode default) items in
      Returns (JArray js)
  | PDict items =>
      let* members :=
        mapM (fun kv => let* j := json_encode default kv.2 in Returns (kv.1, j))
             items in
      Returns (JObject members)
  | PDatetime _ | PBytes _ =>
      let* o' := default o in
      match o' with
      | PStr s => Returns (JString s)
      | _ => Raises (ValueError "Circular reference detected")
      end
  end.

(** [json.dump(obj, fp, cls=...)] for an encoder class with the method
    [default]: the document written to [fp]. *)
Definition json_dump (obj : pyval) (default : pyval → outcome pyval) : outcome json :=
  json_encode default obj.

(** ** The dataclass and the heap *)

(** An instance of the dataclass [Result].  Python does not check the
    annotations of the fields, so each field holds any value. *)
Record Result := mkResult {
  success : pyval;
  error : pyval;
  timestamp : pyval;
  version_at_end : pyval
}.

(** Mutable objects: instances of [Result] and dicts bound to variables. *)
Inductive object :=
| OResult (r : Result)
| ODict (d : dict).

Definition loc := positive.
Abbreviation heap := (gmap loc object).

(** A computation on the heap that returns or raises. *)
Definition M (A : Type) : Type := heap → outcome A * heap.

Definition bind {A B} (c : M A) (k : A → M B) : M B := fun h =>
  match c h with
  | (Returns a, h') => k a h'
  | (Raises e, h') => (Raises e, h')
  end.

Notation "x <- c ;; k" := (bind c (fun x => k))
  (at level 100, c at next level, right associativity).

(** A call that does not touch the heap. *)
Definition call {A} (c : outcome A) : M A := fun h => (c, h).

(** A new object at a location that the heap does not use yet. *)
Definition alloc (o : object) : M loc := fun h =>
  let l := fresh (dom h) in (Returns l, <[l := o]> h).

(** [dataclasses.asdict(obj)]: a new dict of the fields of the instance, in
    the order of their declaration.  The values of the fields are copied;
    every value of the model can be copied, and on immutable trees the copy
    is the value. *)
Definition dataclasses_asdict (obj : loc) : M loc := fun h =>
  match h !! obj with
  | Some (OResult r) =>
      alloc (ODict [("success", success r); ("error", error r);
                    ("timestamp", timestamp r);
                    ("version_at_end", version_at_end r)]) h
  | _ => (Raises (TypeError "asdict() should be called on dataclass instances"), h)
  end.

(** [d[key]] for the dict at [d] *)
Definition dict_getitem (d : loc) (key : string) : M pyval := fun h =>
  match h !! d with
  | Some (ODict items) =>
      match dict_get items key with
      | Some v => (Returns v, h)
      | None => (Raises (KeyError key), h)
      end
  | _ => (Raises (TypeError "object is not subscriptable"), h)
  end.

(** [d[key] = value] for the dict at [d] *)
Definition dict_setitem (d : loc) (key : string) (value : pyval) : M unit := fun h =>
  match h !! d with
  | Some (ODict items) => (Returns (), <[d := ODict (dict_set items key value)]> h)
  | _ => (Raises (TypeError "object does not support item assignment"), h)
  end.

(** [del d[key]] for the dict at [d] *)
Definition dict_delitem (d : loc) (key : string) : M unit := fun h =>
  match h !! d with
  | Some (ODict items) =>
      match dict_get items key with
      | Some _ => (Returns (), <[d := ODict (dict_del items key)]> h)
      | None => (Raises (KeyError key), h)
      end
  | _ => (Raises (TypeError "object does not support item deletion"), h)
  end.

(** The value of the dict at [d], as [json.dump] reads it. *)
Definition dict_value (d : loc) : M pyval := fun h =>
  match h !! d with
  | Some (ODict items) => (Returns (PDict items), h)
  | _ => (Raises (TypeError "Object is not JSON serializable"), h)
  end.

(** ** The module [iso8601] of the application *)

Module iso8601.

(** The character of a decimal digit, and back. *)
Definition digit (d : Z) : ascii := ascii_of_nat (Z.to_nat (48 + d)).

Definition digit_value (c : ascii) : option Z :=
  let n := Z.of_nat (nat_of_ascii c) in
  if (48 <=? n) && (n <=? 57) then Some (n - 48) else None.

(** A number written with two and with four digits. *)
Definition two_digits (n : Z) : list ascii :=
  [digit (n / 10 mod 10); digit (n mod 10)].

Definition four_digits (n : Z) : list ascii :=
  [digit (n / 1000 mod 10); digit (n / 100 mod 10); digit (n / 10 mod 10);
   digit (n mod 10)].

(** The number that a list of digits writes. *)
Definition number (cs : list ascii) : option Z :=
  fold_left (fun acc c => a ← acc; d ← digit_value c; Some (10 * a + d))
            cs (Some 0).

(** Modelled from the spec: [app/iso8601.py] is missing from the sources, and
    with it [iso8601.to_string].  The spec gives the timestamp of the file
    format as ISO-8601 basic text, as in 2021-02-10T085735Z: the date with
    dashes, a T, the time of day without separators, and a Z.  The fields of
    the datetime are written in this pattern. *)
Definition to_string (dt : datetime) : outcome string :=
  Returns (string_of_list_ascii
    (four_digits (year dt) ++ ["-"%char] ++ two_digits (month dt) ++
     ["-"%char] ++ two_digits (day dt) ++ ["T"%char] ++ two_digits (hour dt) ++
     two_digits (minute dt) ++ two_digits (second dt) ++ ["Z"%char])).

(** The datetime that a text of the pattern of [to_string] writes: an aware
    datetime in UTC with no microseconds, when the fields are in range. *)
Definition parse_text (s : string) : option datetime :=
  match list_ascii_of_string s with
  | [y1; y2; y3; y4; c1; m1; m2; c2; d1; d2; c3; h1; h2; n1; n2; s1; s2; c4] =>
      if Ascii.eqb c1 "-" && Ascii.eqb c2 "-" && Ascii.eqb c3 "T" &&
         Ascii.eqb c4 "Z"
      then
        y ← number [y1; y2; y3; y4];
        m ← number [m1; m2];
        d ← number [d1; d2];
        h ← number [h1; h2];
        n ← number [n1; n2];
        s ← number [s1; s2];
        let dt := mkDatetime y m d h n s 0 utc in
        if datetime_valid dt then Some dt else None
      else None
  | _ => None
  end.

(** Modelled from the spec: [app/iso8601.py] is missing from the sources, and
    with it [iso8601.parse].  The spec reads a timestamp of the file format,
    ISO-8601 basic text as in 2021-02-10T085735Z, as the instant it names in
    UTC, and lets the parser raise on a timestamp it cannot parse. *)
Definition parse (iso8601_string : pyval) : outcome pyval :=
  match iso8601_string with
  | PStr s =>
      match parse_text s with
      | Some dt => Returns (PDatetime dt)
      | None => Raises (ValueError ("Invalid ISO-8601 timestamp: " +:+ s))
      end
  | _ => Raises (TypeError "expected a string")
  end.

End iso8601.

(** ** Vocabulary of the statements *)

(** The value of the member [name] of a JSON object: of members with the
    same name, the last one counts. *)
Fixpoint assoc_last {A} (l : list (string * A)) (name : string) : option A :=
  match l with
  | [] => None
  | (k, x) :: l' =>
      match assoc_last l' name with
      | Some y => Some y
      | None => if String.eqb k name then Some x else None
      end
  end.

Definition json_member (members : list (string * json)) (name : string) : option json :=
  assoc_last members name.

(** A document mentions a timestamp when one of its objects, at any depth,
    has a member named timestamp. *)
Fixpoint mentions_timestamp (j : json) : bool :=
  match j with
  | JArray items => existsb mentions_timestamp items
  | JObject members =>
      existsb (fun m => String.eqb m.1 "timestamp" || mentions_timestamp m.2)
              members
  | _ => false
  end.

(** The four names that [read] looks up. *)
Definition known_key (name : string) : bool :=
  String.eqb name "success" || String.eqb name "error" ||
  String.eqb name "timestamp" || String.eqb name "versionAtEnd".

(** The default timestamp of [read]: the naive datetime of the Unix epoch. *)
Definition epoch : datetime := mkDatetime 1970 1 1 0 0 0 0 None.

(** [members'] is [members] with further members added, at any places,
    whose names are not among the four and whose values mention no
    timestamp. *)
Inductive adds_unknown : list (string * json) → list (string * json) → Prop :=
| adds_nothing : adds_unknown [] []
| adds_after m members members' :
    adds_unknown members members' → adds_unknown (m :: members) (m :: members')
| adds_member name j members members' :
    known_key name = false → mentions_timestamp j = false →
    adds_unknown members members' → adds_unknown members ((name, j) :: members').

(** ** The result file of the docstring of [read] *)

Definition example_doc : json :=
  JObject [("success", JBool true); ("error", JString "");
           ("timestamp", JString "2021-02-10T085735Z");
           ("versionAtEnd", JString "1.4.2")].

Definition example_datetime : datetime := mkDatetime 2021 2 10 8 57 35 0 utc.

Definition example_result : Result :=
  mkResult (PBool true) (PStr "") (PDatetime example_datetime) (PStr "1.4.2").

(** A heap whose only object is the example, at location 1. *)
Definition example_heap : heap := {[ 1%positive := OResult example_result ]}.

(** The members of a result file that reports success together with an
    error message, and has a member that [read] does not know. *)
Definition failed_doc : list (string * json) :=
  [("success", JBool true); ("error", JString "disk full");
   ("timestamp", JString "2021-02-10T085735Z");
   ("versionAtEnd", JString "1.4.2"); ("attempt", JInt 2)].

(** A [Result] whose fields do not have the annotated types, and the members
    of a file for it, with one more member. *)
Definition untyped_result : Result :=
  mkResult PNone (PList [PStr "no space"; PStr "retry"])
           (PDatetime example_datetime)
           (PDict [("major", PInt 1); ("minor", PInt 4)]).

Definition untyped_doc : list (string * json) :=
  [("success", JNull);
   ("error", JArray [JString "no space"; JString "retry"]);
   ("timestamp", JString "2021-02-10T085735Z");
   ("versionAtEnd", JObject [("major", JInt 1); ("minor", JInt 4)]);
   ("host", JString "pilot")].

(** A document with a timestamp below the top level, and its value. *)
Definition nested_doc : json :=
  JObject [("job", JObject [("timestamp", JString "2021-02-10T085735Z");
                            ("tries", JArray [JInt 1; JInt 2])])].

Definition nested_value : pyval :=
  PDict [("job", PDict [("timestamp", PDatetime example_datetime);
                        ("tries", PList [PInt 1; PInt 2])])].

(** A text that breaks off after an object with a timestamp that is no
    timestamp, [{"a": {"timestamp": "yesterday"}, ], and the object that the
    decoder has completed by then. *)
Definition double_quote : string := String (ascii_of_nat 34) EmptyString.

Definition broken_text : string :=
  "{" +:+ double_quote +:+ "a" +:+ double_quote +:+ ": {" +:+ double_quote +:+
  "timestamp" +:+ double_quote +:+ ": " +:+ double_quote +:+ "yesterday" +:+
  double_quote +:+ "}, ".

Definition broken_parsed : list json :=
  [JObject [("timestamp", JString "yesterday")]].


(** ** [update_result.py] *)

Section update_result.

(** [iso8601.parse] and [iso8601.to_string], the two functions of the
    application's module [iso8601] that [update_result.py] calls. *)
Variable iso8601_parse : pyval → outcome pyval.
Variable iso8601_to_string : datetime → outcome string.

(** [_ResultEncoder.default] *)
Definition _ResultEncoder_default (obj : pyval) : outcome pyval :=
  match obj with
  | PDatetime dt =>
      let* s := iso8601_to_string dt in
      Returns (PStr s)
  | _ => Returns obj
  end.

(** [_ResultDecoder._decode_object].  [obj] is the dict that the decoder has
    just built and that nothing else refers to, so the assignment to its key
    is a new value of the dict. *)
Definition _ResultDecoder_decode_object (obj : dict) : outcome pyval :=
  match dict_get obj "timestamp" with
  | Some v =>
      let* t := iso8601_parse v in
      Returns (PDict (dict_set obj "timestamp" t))
  | None => Returns (PDict obj)
  end.

(** [read(result_file)]: [result_file] is the text that [json.load] reads
    from the file, and the result is the location of the new [Result].  The
    file object and its position are no objects of the heap. *)
Definition read (result_file : json_text) : M loc :=
  raw_result <- call (json_load result_file _ResultDecoder_decode_object) ;;
  s <- call (py_get raw_result "success" (PBool false)) ;;
  e <- call (py_get raw_result "error" (PStr "")) ;;
  t0 <- call (utcfromtimestamp 0) ;;
  t <- call (py_get raw_result "timestamp" (PDatetime t0)) ;;
  v <- call (py_get raw_result "versionAtEnd" (PStr "")) ;;
  alloc (OResult {| success := s; error := e; timestamp := t;
                    version_at_end := v |}).

(** [write(result, result_file)]: [result] is the location of the [Result],
    and the value returned is the document written to [result_file]. *)
Definition write (result : loc) : M json :=
  result_dict <- dataclasses_asdict result ;;
  v <- dict_getitem result_dict "version_at_end" ;;
  _ <- dict_setitem result_dict "versionAtEnd" v ;;
  _ <- dict_delitem result_dict "version_at_end" ;;
  obj <- dict_value result_dict ;;
  call (json_dump obj _ResultEncoder_default).

(** *** Definitions for the statements and proofs *)

(** What the decoder does with one member of an object. *)
Definition decode_member (m : string * json) : outcome (string * pyval) :=
  let* v := json_decode _ResultDecoder_decode_object m.2 in
  Returns (m.1, v).

(** The value that [raw_result.get(name, default)] returns, from the decoded
    members of the object. *)
Definition field (pairs : list (string * pyval)) (name : string) (default : pyval) : pyval :=
  from_option id default (assoc_last pairs name).

(** [read] after the members of the top-level object have been decoded. *)
Definition read_pairs (pairs : list (string * pyval)) : M loc := fun h =>
  match assoc_last pairs "timestamp" with
  | Some v =>
      match iso8601_parse v with
      | Returns t =>
          alloc (OResult (mkResult (field pairs "success" (PBool false))
                                   (field pairs "error" (PStr "")) t
                                   (field pairs "versionAtEnd" (PStr "")))) h
      | Raises e => (Raises e, h)
      end
  | None =>
      alloc (OResult (mkResult (field pairs "success" (PBool false))
                               (field pairs "error" (PStr ""))
                               (PDatetime epoch)
                               (field pairs "versionAtEnd" (PStr "")))) h
  end.

(** The dict that [write] hands to [json.dump]. *)
Definition result_dict_of (r : Result) : dict :=
  [("success", success r); ("error", error r); ("timestamp", timestamp r);
   ("versionAtEnd", version_at_end r)].

(** The document has an object, at any depth, whose member timestamp has a
    value that [iso8601.parse] does not parse, and [e] is what the parser
    raises for it.  The value is the decoded one: objects inside it have
    been through [_decode_object] already. *)
Inductive rejects_timestamp : json → exn → Prop :=
| rejects_here members j v e :
    json_member members "timestamp" = Some j →
    json_decode _ResultDecoder_decode_object j = Returns v →
    iso8601_parse v = Raises e →
    rejects_timestamp (JObject members) e
| rejects_item items j e :
    j ∈ items → rejects_timestamp j e → rejects_timestamp (JArray items) e
| rejects_member members m e :
    m ∈ members → rejects_timestamp m.2 e → rejects_timestamp (JObject members) e.

(** The hook of a decoder that installs none: an object becomes its dict. *)
Definition keep_object (obj : dict) : outcome pyval := Returns (PDict obj).

(** Every dict of the value, at any depth, that has the key timestamp holds
    under it a value that [iso8601.parse] returned.  What the parser returned
    is not looked into. *)
Inductive timestamps_parsed : pyval → Prop :=
| parsed_none : timestamps_parsed PNone
| parsed_bool b : timestamps_parsed (PBool b)
| parsed_int n : timestamps_parsed (PInt n)
| parsed_float x : timestamps_parsed (PFloat x)
| parsed_str s : timestamps_parsed (PStr s)
| parsed_list items :
    Forall timestamps_parsed items → timestamps_parsed (PList items)
| parsed_dict items :
    Forall (fun kv => kv.1 ≠ "timestamp" → timestamps_parsed kv.2) items →
    (∀ t, dict_get items "timestamp" = Some t →
          ∃ v, iso8601_parse v = Returns t) →
    timestamps_parsed (PDict items).




(** The documents that are written again as they were read.  An object has
    members of distinct names, and its member timestamp, if it has one, is a
    string that [iso8601.to_string] writes for the datetime that
    [iso8601.parse] reads from it. *)
Inductive text_survives : json → Prop :=
| text_null : text_survives JNull
| text_bool b : text_survives (JBool b)
| text_int n : text_survives (JInt n)
| text_float x : text_survives (JFloat x)
| text_string s : text_survives (JString s)
| text_array items : Forall text_survives items → text_survives (JArray items)
| text_object members :
    NoDup members.*1 →
    Forall (fun m => m.1 ≠ "timestamp" → text_survives m.2) members →
    Forall (fun m => m.1 = "timestamp" →
              ∃ ts dt, m.2 = JString ts ∧
                       iso8601_parse (PStr ts) = Returns (PDatetime dt) ∧
                       iso8601_to_string dt = Returns ts)
           members →
    text_survives (JObject members).

(** What a member of an object is decoded to, before the hook sees the
    dict: a value that is written as the member, or, for the member
    timestamp, the string itself. *)
Definition encoded_member (m : string * json) (p : string * pyval) : Prop :=
  p.1 = m.1 ∧
  (m.1 ≠ "timestamp" →
   json_encode _ResultEncoder_default p.2 = Returns m.2) ∧
  (m.1 = "timestamp" →
   ∃ ts dt, m.2 = JString ts ∧ p.2 = PStr ts ∧
            iso8601_parse (PStr ts) = Returns (PDatetime dt) ∧
            iso8601_to_string dt = Returns ts).

(** *** Dicts and the members of objects *)

Lemma dict_get_set d key value key' :
  dict_get (dict_set d key value) key' =
  if String.eqb key key' then Some value else dict_get d key'.
Proof.
  induction d as [|[k v] d IH]; simpl; [done|].
  destruct (String.eqb_spec k key) as [->|Hk]; simpl.
  - by destruct (String.eqb key key').
  - rewrite IH. destruct (String.eqb_spec k key') as [->|]; [|done].
    by rewrite (proj2 (String.eqb_neq key key')).
Qed.

Lemma dict_get_fold_set pairs d key :
  dict_get (fold_left (fun d kv => dict_set d kv.1 kv.2) pairs d) key =
  match assoc_last pairs key with
  | Some v => Some v
  | None => dict_get d key
  end.
Proof.
  revert d. induction pairs as [|[k v] pairs IH]; intros d; simpl; [done|].
  rewrite IH, dict_get_set.
  by destruct (assoc_last pairs key), (String.eqb k key).
Qed.

Lemma dict_get_of_pairs pairs key :
  dict_get (dict_of_pairs pairs) key = assoc_last pairs key.
Proof.
  unfold dict_of_pairs. rewrite dict_get_fold_set.
  by destruct (assoc_last pairs key).
Qed.

Lemma assoc_last_None {A} (l : list (string * A)) name :
  assoc_last l name = None ↔ name ∉ l.*1.
Proof.
  induction l as [|[k x] l IH]; simpl.
  - split; [intros _; apply not_elem_of_nil | done].
  - rewrite not_elem_of_cons, <- IH.
    destruct (assoc_last l name) as [y|].
    + split; [done | intros [_ ?]; done].
    + destruct (String.eqb_spec k name) as [->|Hk].
      * split; [done | intros [? _]; done].
      * split; [intros _; split; [congruence | done] | done].
Qed.

(** *** Decoding *)

(** Induction on a document, with the hypothesis for every item of an array
    and every member of an object. *)
Lemma json_nested_ind (P : json → Prop) :
  P JNull → (∀ b, P (JBool b)) → (∀ n, P (JInt n)) → (∀ x, P (JFloat x)) →
  (∀ s, P (JString s)) →
  (∀ items, Forall P items → P (JArray items)) →
  (∀ members, Forall (fun m => P m.2) members → P (JObject members)) →
  ∀ j, P j.
Proof.
  intros HN HB HI HF HS HA HO. fix IH 1.
  intros [|b|n|x|s|items|members];
    [apply HN | apply HB | apply HI | apply HF | apply HS | apply HA | apply HO].
  - induction items as [|j items IHitems]; constructor; [apply IH | exact IHitems].
  - induction members as [|[k j] members IHm]; constructor;
      [apply IH | exact IHm].
Qed.

Lemma json_decode_object members :
  json_decode _ResultDecoder_decode_object (JObject members) =
  let* pairs := mapM decode_member members in
  _ResultDecoder_decode_object (dict_of_pairs pairs).
Proof. reflexivity. Qed.

Lemma json_decode_array items :
  json_decode _ResultDecoder_decode_object (JArray items) =
  let* values := mapM (json_decode _ResultDecoder_decode_object) items in
  Returns (PList values).
Proof. reflexivity. Qed.

Lemma mapM_cons {A B} (f : A → outcome B) x l :
  mapM f (x :: l) = let* y := f x in let* ys := mapM f l in Returns (y :: ys).
Proof. reflexivity. Qed.

Lemma mapM_returns {A B} (f : A → outcome B) l :
  Forall (fun x => ∃ y, f x = Returns y) l → ∃ ys, mapM f l = Returns ys.
Proof.
  induction 1 as [|x l [y Hy] _ [ys Hys]]; [by exists []|].
  exists (y :: ys). by rewrite mapM_cons, Hy, Hys.
Qed.

Lemma mapM_raises {A B} (f : A → outcome B) l e :
  mapM f l = Raises e → ∃ x, x ∈ l ∧ f x = Raises e.
Proof.
  induction l as [|x l IH]; [done|]. rewrite mapM_cons.
  destruct (f x) as [y|e'] eqn:Hx; simpl.
  - destruct (mapM f l) as [ys|e'] eqn:Hl; simpl; [done|].
    intros [= ->]. destruct IH as (x' & ? & ?); [done|].
    exists x'. split; [by right | done].
  - intros [= ->]. exists x. split; [by left | done].
Qed.

Lemma mapM_elem_raises {A B} (f : A → outcome B) l x e :
  x ∈ l → f x = Raises e → ∃ e', mapM f l = Raises e'.
Proof.
  induction 1 as [x l|x x' l _ IH]; intros Hx; rewrite mapM_cons.
  - rewrite Hx. by exists e.
  - destruct (f x') as [y|e']; simpl; [|by exists e'].
    destruct (IH Hx) as [e' ->]. by exists e'.
Qed.

Lemma decode_member_keys members pairs :
  mapM decode_member members = Returns pairs → pairs.*1 = members.*1.
Proof.
  revert pairs. induction members as [|[k j] members IH]; intros pairs.
  - by intros [= <-].
  - rewrite mapM_cons. unfold decode_member at 1. simpl.
    destruct (json_decode _ j) as [v|]; simpl; [|done].
    destruct (mapM decode_member members) as [ps|]; simpl; [|done].
    intros [= <-]. simpl. f_equal. by apply IH.
Qed.

(** The decoded value of the last member of each name. *)
Lemma decode_member_last members pairs name :
  mapM decode_member members = Returns pairs →
  match json_member members name with
  | Some j =>
      ∃ v, json_decode _ResultDecoder_decode_object j = Returns v ∧
           assoc_last pairs name = Some v
  | None => assoc_last pairs name = None
  end.
Proof.
  unfold json_member. revert pairs.
  induction members as [|[k j] members IH]; intros pairs.
  - by intros [= <-].
  - rewrite mapM_cons. unfold decode_member at 1. simpl.
    destruct (json_decode _ j) as [v|] eqn:Hj; simpl; [|done].
    destruct (mapM decode_member members) as [ps|]; simpl; [|done].
    intros [= <-]. specialize (IH ps eq_refl). simpl.
    destruct (assoc_last members name) as [j'|].
    + destruct IH as (v' & ? & ->). by exists v'.
    + rewrite IH. destruct (String.eqb k name); [by exists v | done].
Qed.

(** A document that mentions no timestamp is decoded without a call of the
    timestamp parser, whatever the parser is. *)
Lemma decode_without_timestamp j :
  mentions_timestamp j = false →
  ∃ v, json_decode _ResultDecoder_decode_object j = Returns v.
Proof.
  induction j as [| | | | |items IH|members IH] using json_nested_ind;
    intros Hj; try (eexists; reflexivity).
  - rewrite json_decode_array.
    destruct (mapM_returns (json_decode _ResultDecoder_decode_object) items)
      as [vs ->]; [|by eexists].
    simpl in Hj. induction IH as [|j items Hj' _ IHitems]; constructor.
    + apply Hj'. simpl in Hj. by destruct (mentions_timestamp j).
    + apply IHitems. simpl in Hj. by destruct (mentions_timestamp j).
  - rewrite json_decode_object.
    destruct (mapM_returns decode_member members) as [pairs Hpairs].
    { simpl in Hj. induction IH as [|[k j] members Hj' _ IHm]; constructor.
      - simpl in Hj, Hj'. unfold decode_member. simpl.
        destruct Hj' as [v ->].
        + by destruct (String.eqb k "timestamp"), (mentions_timestamp j).
        + by eexists.
      - apply IHm. simpl in Hj.
        by destruct (String.eqb k "timestamp"), (mentions_timestamp j). }
    rewrite Hpairs. simpl. unfold _ResultDecoder_decode_object.
    rewrite dict_get_of_pairs.
    replace (assoc_last pairs "timestamp") with (@None pyval); [by eexists|].
    symmetry. apply assoc_last_None.
    rewrite (decode_member_keys _ _ Hpairs).
    clear -Hj. simpl in Hj. induction members as [|[k j] members IHm].
    + apply not_elem_of_nil.
    + simpl in *. destruct (String.eqb_spec k "timestamp"); [done|].
      simpl in Hj. destruct (mentions_timestamp j); [done|].
      apply not_elem_of_cons. split; [congruence | by apply IHm].
Qed.

(** *** What [read] and [write] compute *)

Lemma utcfromtimestamp_0 : utcfromtimestamp 0 = Returns epoch.
Proof. reflexivity. Qed.

Lemma read_object members h :
  read (Doc (JObject members)) h =
  match mapM decode_member members with
  | Returns pairs => read_pairs pairs h
  | Raises e => (Raises e, h)
  end.
Proof.
  unfold read, bind, call, json_load. rewrite json_decode_object.
  destruct (mapM decode_member members) as [pairs|e]; simpl; [|done].
  unfold _ResultDecoder_decode_object, read_pairs, field.
  rewrite dict_get_of_pairs.
  destruct (assoc_last pairs "timestamp") as [v|] eqn:Hts; simpl.
  - destruct (iso8601_parse v) as [t|e]; simpl; [|done].
    by rewrite !dict_get_set, !dict_get_of_pairs.
  - by rewrite !dict_get_of_pairs, Hts.
Qed.

Lemma read_malformed parsed text h :
  read (Malformed parsed text) h =
  (match mapM (json_decode _ResultDecoder_decode_object) parsed with
   | Returns _ => Raises (JSONDecodeError text)
   | Raises e => Raises e
   end, h).
Proof.
  unfold read, bind, call, json_load.
  by destruct (mapM (json_decode _ResultDecoder_decode_object) parsed).
Qed.

Lemma write_run h result r :
  h !! result = Some (OResult r) →
  write result h =
  (json_dump (PDict (result_dict_of r)) _ResultEncoder_default,
   <[fresh (dom h) := ODict (result_dict_of r)]> h).
Proof.
  intros Hr. unfold write, bind, dataclasses_asdict. rewrite Hr.
  unfold alloc, dict_getitem. rewrite lookup_insert_eq. simpl.
  unfold dict_setitem. rewrite lookup_insert_eq, insert_insert_eq. simpl.
  unfold dict_delitem. rewrite lookup_insert_eq, insert_insert_eq. simpl.
  unfold dict_value. by rewrite lookup_insert_eq.
Qed.

Lemma write_not_result h result :
  (∀ r, h !! result ≠ Some (OResult r)) →
  write result h =
  (Raises (TypeError "asdict() should be called on dataclass instances"), h).
Proof.
  intros Hr. unfold write, bind, dataclasses_asdict.
  destruct (h !! result) as [[r|d]|] eqn:Hl; [by destruct (Hr r) | done | done].
Qed.

Lemma json_dump_result_dict r :
  json_dump (PDict (result_dict_of r)) _ResultEncoder_default =
  let* js := json_encode _ResultEncoder_default (success r) in
  let* je := json_encode _ResultEncoder_default (error r) in
  let* jt := json_encode _ResultEncoder_default (timestamp r) in
  let* jv := json_encode _ResultEncoder_default (version_at_end r) in
  Returns (JObject [("success", js); ("error", je); ("timestamp", jt);
                    ("versionAtEnd", jv)]).
Proof.
  unfold json_dump, result_dict_of. simpl.
  destruct (json_encode _ (success r)); simpl; [|done].
  destruct (json_encode _ (error r)); simpl; [|done].
  destruct (json_encode _ (timestamp r)); simpl; [|done].
  by destruct (json_encode _ (version_at_end r)).
Qed.

(** A location of the heap is not the one that the next object gets. *)
Lemma fresh_dom_ne (h : heap) l o : h !! l = Some o → l ≠ fresh (dom h).
Proof.
  intros Hl ->. apply (is_fresh (dom h)). apply elem_of_dom. by exists o.
Qed.

(** *** What makes [read] raise *)

Lemma decode_raises_rejects j e :
  json_decode _ResultDecoder_decode_object j = Raises e → rejects_timestamp j e.
Proof.
  induction j as [| | | | |items IH|members IH] using json_nested_ind;
    try done.
  - rewrite json_decode_array.
    destruct (mapM _ items) as [vs|e'] eqn:Hitems; simpl; [done|].
    intros [= ->]. apply mapM_raises in Hitems as (j & Hin & Hj).
    apply (rejects_item _ j); [done|].
    rewrite Forall_forall in IH. by apply IH.
  - rewrite json_decode_object.
    destruct (mapM decode_member members) as [pairs|e'] eqn:Hpairs; simpl.
    + unfold _ResultDecoder_decode_object. rewrite dict_get_of_pairs.
      pose proof (decode_member_last _ _ "timestamp" Hpairs) as Hlast.
      destruct (assoc_last pairs "timestamp") as [v|]; [|done].
      destruct (iso8601_parse v) as [t|e'] eqn:Hv; simpl; [done|].
      intros [= ->].
      destruct (json_member members "timestamp") as [j|] eqn:Hj; [|done].
      destruct Hlast as (v' & Hv' & [= <-]).
      by apply (rejects_here _ j v).
    + intros [= ->]. apply mapM_raises in Hpairs as ([k j] & Hin & Hj).
      apply (rejects_member _ (k, j)); [done|].
      rewrite Forall_forall in IH. apply (IH _ Hin).
      unfold decode_member in Hj. simpl in *.
      destruct (json_decode _ j); simpl in Hj; congruence.
Qed.

Lemma rejects_decode_raises j e :
  rejects_timestamp j e →
  ∃ e', json_decode _ResultDecoder_decode_object j = Raises e'.
Proof.
  induction 1 as [members j v e Hj Hv He|items j e Hin _ [e' IH]
                  |members [k j] e Hin _ [e' IH]].
  - rewrite json_decode_object.
    destruct (mapM decode_member members) as [pairs|e'] eqn:Hpairs; simpl;
      [|by exists e'].
    pose proof (decode_member_last _ _ "timestamp" Hpairs) as Hlast.
    rewrite Hj in Hlast. destruct Hlast as (v' & Hv' & Hlast).
    assert (v' = v) as -> by congruence.
    unfold _ResultDecoder_decode_object.
    rewrite dict_get_of_pairs, Hlast, He. by exists e.
  - rewrite json_decode_array.
    destruct (mapM_elem_raises _ _ _ _ Hin IH) as [e'' ->]. by exists e''.
  - rewrite json_decode_object.
    destruct (mapM_elem_raises decode_member _ (k, j) e' Hin) as [e'' ->];
      [|by exists e''].
    unfold decode_member. simpl in *. by rewrite IH.
Qed.

Lemma rejects_parser_error j e :
  rejects_timestamp j e → ∃ v, iso8601_parse v = Raises e.
Proof. induction 1; eauto. Qed.

(** On an object, [read] raises what the decoder raises and nothing else. *)
Lemma read_object_raises members h e h' :
  read (Doc (JObject members)) h = (Raises e, h') ↔
  json_decode _ResultDecoder_decode_object (JObject members) = Raises e ∧ h' = h.
Proof.
  rewrite read_object, json_decode_object.
  destruct (mapM decode_member members) as [pairs|e'] eqn:Hpairs; simpl.
  - unfold read_pairs, _ResultDecoder_decode_object.
    rewrite dict_get_of_pairs.
    destruct (assoc_last pairs "timestamp") as [v|]; [|by split; [|intros []]].
    destruct (iso8601_parse v) as [t|e'']; simpl.
    + by split; [|intros []].
    + split; [by intros [= -> ->] | by intros [[= ->] ->]].
  - split; [by intros [= -> ->] | by intros [[= ->] ->]].
Qed.

Lemma read_object_returns members h :
  (∀ e, ¬ rejects_timestamp (JObject members) e) →
  ∃ pairs, mapM decode_member members = Returns pairs ∧
           read (Doc (JObject members)) h = read_pairs pairs h ∧
           ∃ result h', read_pairs pairs h = (Returns result, h').
Proof.
  intros Hok.
  assert (Hnot : ∀ e h', read (Doc (JObject members)) h ≠ (Raises e, h')).
  { intros e h' Hread. apply read_object_raises in Hread as [Hread _].
    by apply decode_raises_rejects, Hok in Hread. }
  rewrite read_object in Hnot |- *.
  destruct (mapM decode_member members) as [pairs|e]; [|by destruct (Hnot e h)].
  exists pairs. split; [done|]. split; [done|].
  destruct (read_pairs pairs h) as [[result|e] h']; [by eauto|].
  by destruct (Hnot e h').
Qed.

Lemma read_returns_not_rejected members h result h' e :
  read (Doc (JObject members)) h = (Returns result, h') →
  ¬ rejects_timestamp (JObject members) e.
Proof.
  intros Hread He. apply rejects_decode_raises in He as [e' He'].
  assert (read (Doc (JObject members)) h = (Raises e', h)) as Hraise
    by by apply read_object_raises.
  congruence.
Qed.

(** *** Members of other names *)

Lemma decode_adds_unknown members members' :
  adds_unknown members members' →
  match mapM decode_member members with
  | Returns pairs =>
      ∃ pairs', mapM decode_member members' = Returns pairs' ∧
        ∀ name, known_key name = true →
                assoc_last pairs' name = assoc_last pairs name
  | Raises e => mapM decode_member members' = Raises e
  end.
Proof.
  induction 1 as [|m members members' _ IH|k j members members' Hk Hj _ IH].
  - by exists [].
  - rewrite !mapM_cons. destruct (decode_member m) as [p|e]; simpl; [|done].
    destruct (mapM decode_member members) as [pairs|e]; simpl.
    + destruct IH as (pairs' & -> & IH). simpl. eexists. split; [done|].
      intros name Hname. destruct p as [k v]. simpl. by rewrite IH.
    + by rewrite IH.
  - rewrite mapM_cons.
    assert (∃ v, decode_member (k, j) = Returns (k, v)) as [v ->].
    { destruct (decode_without_timestamp j Hj) as [v Hv]. exists v.
      unfold decode_member. simpl. by rewrite Hv. }
    simpl. destruct (mapM decode_member members) as [pairs|e].
    + destruct IH as (pairs' & -> & IH). simpl. eexists. split; [done|].
      intros name Hname. simpl. rewrite IH by done.
      destruct (assoc_last pairs name); [done|].
      destruct (String.eqb_spec k name); congruence.
    + by rewrite IH.
Qed.

Lemma read_pairs_known pairs pairs' h :
  (∀ name, known_key name = true →
           assoc_last pairs' name = assoc_last pairs name) →
  read_pairs pairs' h = read_pairs pairs h.
Proof.
  intros Hsame. unfold read_pairs, field. by rewrite !Hsame.
Qed.

Lemma adds_unknown_filter members :
  Forall (fun m => known_key m.1 = false → mentions_timestamp m.2 = false)
         members →
  adds_unknown (List.filter (fun m => known_key m.1) members) members.
Proof.
  induction 1 as [|[k j] members Hm _ IH]; simpl; [constructor|].
  destruct (known_key k) eqn:Hk; simpl in *; constructor; auto.
Qed.

(** *** Round trips *)


(** C2: a JSON object whose members success, error, timestamp and
    versionAtEnd are a boolean, a string, a timestamp text and a string, and
    none of whose timestamps the parser rejects, is read by [read] into a
    [Result] that [write] writes as the object of these four members with
    the values of the input, whenever [iso8601.to_string] writes the datetime
    that [iso8601.parse] reads from the timestamp text as that text. *)
Theorem read_then_write_preserves_fields (h : heap) members b e ts dt v :
  json_member members "success" = Some (JBool b) →
  json_member members "error" = Some (JString e) →
  json_member members "timestamp" = Some (JString ts) →
  json_member members "versionAtEnd" = Some (JString v) →
  (∀ e', ¬ rejects_timestamp (JObject members) e') →
  iso8601_parse (PStr ts) = Returns (PDatetime dt) →
  iso8601_to_string dt = Returns ts →
  ∃ result h1 h2,
    read (Doc (JObject members)) h = (Returns result, h1) ∧
    write result h1 =
      (Returns (JObject [("success", JBool b); ("error", JString e);
                         ("timestamp", JString ts);
                         ("versionAtEnd", JString v)]), h2).
Proof.
  intros Hs He Ht Hv Hok Hparse Hts.
  destruct (read_object_returns members h Hok) as (pairs & Hpairs & _).
  pose proof (decode_member_last _ _ "success" Hpairs) as Ls.
  pose proof (decode_member_last _ _ "error" Hpairs) as Le.
  pose proof (decode_member_last _ _ "timestamp" Hpairs) as Lt.
  pose proof (decode_member_last _ _ "versionAtEnd" Hpairs) as Lv.
  rewrite Hs in Ls. rewrite He in Le. rewrite Ht in Lt. rewrite Hv in Lv.
  destruct Ls as (? & [= <-] & Ls), Le as (? & [= <-] & Le),
    Lt as (? & [= <-] & Lt), Lv as (? & [= <-] & Lv).
  eexists _, _, _. split.
  - rewrite read_object, Hpairs. unfold read_pairs, field.
    rewrite Lt, Hparse, Ls, Le, Lv. simpl. unfold alloc. reflexivity.
  - erewrite write_run; [|apply lookup_insert_eq].
    rewrite json_dump_result_dict. simpl. rewrite Hts. simpl. reflexivity.
Qed.

(** *** Defaults *)

(** C3: in the [Result] that [read] returns for a JSON object, a field whose
    name is absent from the object holds its default: [False] for success,
    the empty string for error and for versionAtEnd, and for timestamp the
    naive datetime of the Unix epoch, 1970-01-01 00:00:00.  The empty object
    is read as the [Result] of the four defaults. *)
Theorem read_defaults_absent_fields (h : heap) members :
  (∀ result h',
     read (Doc (JObject members)) h = (Returns result, h') →
     ∃ r, h' !! result = Some (OResult r) ∧
       ("success" ∉ members.*1 → success r = PBool false) ∧
       ("error" ∉ members.*1 → error r = PStr "") ∧
       ("timestamp" ∉ members.*1 →
          timestamp r = PDatetime (mkDatetime 1970 1 1 0 0 0 0 None)) ∧
       ("versionAtEnd" ∉ members.*1 → version_at_end r = PStr "")) ∧
  ∃ result h',
    read (Doc (JObject [])) h = (Returns result, h') ∧
    h' !! result =
      Some (OResult (mkResult (PBool false) (PStr "")
                              (PDatetime (mkDatetime 1970 1 1 0 0 0 0 None))
                              (PStr ""))).
Proof.
  split.
  - intros result h'. rewrite read_object.
    destruct (mapM decode_member members) as [pairs|] eqn:Hpairs; [|done].
    assert (Habs : ∀ name, name ∉ members.*1 → assoc_last pairs name = None).
    { intros name Hname. apply assoc_last_None.
      by rewrite (decode_member_keys _ _ Hpairs). }
    unfold read_pairs, field.
    destruct (assoc_last pairs "timestamp") as [w|] eqn:Hw.
    + destruct (iso8601_parse w) as [t|]; [|done].
      unfold alloc. intros [= <- <-]. eexists. split; [apply lookup_insert_eq|].
      simpl. repeat split; intros Hname; rewrite ?(Habs _ Hname); try done.
      rewrite (Habs _ Hname) in Hw. done.
    + unfold alloc. intros [= <- <-]. eexists. split; [apply lookup_insert_eq|].
      simpl. repeat split; intros Hname; rewrite ?(Habs _ Hname); done.
  - eexists _, _. split; [reflexivity|]. apply lookup_insert_eq.
Qed.

(** *** Errors *)

(** C4, as amended: malformed text always makes [read] raise, and the heap
    is as before.  What [read] raises for it is the error of the JSON
    decoder, unless a value that the decoder completed before the error has
    an object whose timestamp [iso8601.parse] rejects: then it is what the
    parser raised for such a timestamp, unchanged.  For a well-formed JSON
    object, [read] raises exactly when some object of the document has a
    timestamp that [iso8601.parse] rejects; what [read] raises is then what
    the parser raised, unchanged, and the heap is as before.  An object that
    mentions no timestamp is read without an error, whichever of the four
    fields are missing. *)
Theorem read_raises_for_timestamps_only (h : heap) :
  (∀ parsed text,
     ∃ e, read (Malformed parsed text) h = (Raises e, h) ∧
       ((∀ j e', j ∈ parsed → ¬ rejects_timestamp j e') →
        e = JSONDecodeError text) ∧
       ((∃ j e', j ∈ parsed ∧ rejects_timestamp j e') →
        ∃ j, j ∈ parsed ∧ rejects_timestamp j e ∧
             ∃ v, iso8601_parse v = Raises e)) ∧
  (∀ members,
     (∃ e h', read (Doc (JObject members)) h = (Raises e, h')) ↔
     (∃ e, rejects_timestamp (JObject members) e)) ∧
  (∀ members e h',
     read (Doc (JObject members)) h = (Raises e, h') →
     rejects_timestamp (JObject members) e ∧
     (∃ v, iso8601_parse v = Raises e) ∧ h' = h) ∧
  (∀ members,
     mentions_timestamp (JObject members) = false →
     ∃ result h', read (Doc (JObject members)) h = (Returns result, h')).
Proof.
  split; [|split; [|split]].
  - intros parsed text. rewrite read_malformed.
    destruct (mapM _ parsed) as [vs|e] eqn:Hparsed.
    + exists (JSONDecodeError text). split; [done|]. split; [done|].
      intros (j & e' & Hin & Hrej).
      apply rejects_decode_raises in Hrej as [e'' Hrej].
      destruct (mapM_elem_raises _ _ _ _ Hin Hrej) as [e3 He3]. congruence.
    + apply mapM_raises in Hparsed as (j & Hin & Hj).
      apply decode_raises_rejects in Hj.
      exists e. split; [done|]. split.
      * intros Hnone. by destruct (Hnone j e Hin).
      * intros _. exists j. split; [done|]. split; [done|].
        by eapply rejects_parser_error.
  - intros members. split.
    + intros (e & h' & Hread). exists e.
      apply read_object_raises in Hread as [Hread _].
      by apply decode_raises_rejects.
    + intros [e He]. apply rejects_decode_raises in He as [e' He'].
      exists e', h. by apply read_object_raises.
  - intros members e h' Hread.
    apply read_object_raises in Hread as [Hread ->].
    apply decode_raises_rejects in Hread.
    split; [done|]. split; [by eapply rejects_parser_error | done].
  - intros members Hquiet.
    destruct (decode_without_timestamp _ Hquiet) as [v Hv].
    destruct (read (Doc (JObject members)) h) as [[result|e] h'] eqn:Hread;
      [by eauto|].
    apply read_object_raises in Hread as [Hread _]. congruence.
Qed.

(** *** The document that [write] produces *)

(** C7: the document that [write] produces for a [Result] is an object with
    the members success, error, timestamp and versionAtEnd, in this order and
    no others; the member versionAtEnd holds the encoded value of the field
    [version_at_end], and there is no member version_at_end. *)
Theorem write_renames_version_at_end (h : heap) result r doc h' :
  h !! result = Some (OResult r) →
  write result h = (Returns doc, h') →
  ∃ members jv,
    doc = JObject members ∧
    members.*1 = ["success"; "error"; "timestamp"; "versionAtEnd"] ∧
    json_member members "versionAtEnd" = Some jv ∧
    json_encode _ResultEncoder_default (version_at_end r) = Returns jv ∧
    (∀ v, version_at_end r = PStr v → jv = JString v) ∧
    json_member members "version_at_end" = None.
Proof.
  intros Hres. rewrite (write_run _ _ _ Hres), json_dump_result_dict.
  destruct (json_encode _ (success r)) as [js|]; simpl; [|done].
  destruct (json_encode _ (error r)) as [je|]; simpl; [|done].
  destruct (json_encode _ (timestamp r)) as [jt|]; simpl; [|done].
  destruct (json_encode _ (version_at_end r)) as [jv|] eqn:Hjv; simpl; [|done].
  intros [= <- <-]. eexists _, jv. repeat split.
  intros v Hv. rewrite Hv in Hjv. simpl in Hjv. congruence.
Qed.

(** C8: neither function looks at the error of a successful result.  A
    [Result] with success [True] and a non-empty error is written, once
    [iso8601.to_string] has written its timestamp, with both values in the
    document; and an object with success true and a non-empty error, none of
    whose timestamps the parser rejects, is read as a [Result] with these
    two values. *)
Theorem success_with_error_is_accepted (h : heap) :
  (∀ result e dt v ts,
     e ≠ "" →
     h !! result =
       Some (OResult (mkResult (PBool true) (PStr e) (PDatetime dt) (PStr v))) →
     iso8601_to_string dt = Returns ts →
     ∃ h', write result h =
       (Returns (JObject [("success", JBool true); ("error", JString e);
                          ("timestamp", JString ts);
                          ("versionAtEnd", JString v)]), h')) ∧
  (∀ members e,
     e ≠ "" →
     json_member members "success" = Some (JBool true) →
     json_member members "error" = Some (JString e) →
     (∀ e', ¬ rejects_timestamp (JObject members) e') →
     ∃ result h' r,
       read (Doc (JObject members)) h = (Returns result, h') ∧
       h' !! result = Some (OResult r) ∧
       success r = PBool true ∧ error r = PStr e).
Proof.
  split.
  - intros result e dt v ts _ Hres Hts. eexists.
    rewrite (write_run _ _ _ Hres), json_dump_result_dict. simpl.
    rewrite Hts. reflexivity.
  - intros members e _ Hs He Hok.
    destruct (read_object_returns members h Hok)
      as (pairs & Hpairs & -> & result & h' & Hread).
    pose proof (decode_member_last _ _ "success" Hpairs) as Ls.
    pose proof (decode_member_last _ _ "error" Hpairs) as Le.
    rewrite Hs in Ls. rewrite He in Le.
    destruct Ls as (? & [= <-] & Ls), Le as (? & [= <-] & Le).
    exists result, h'. revert Hread. unfold read_pairs, field.
    rewrite Ls, Le. simpl.
    destruct (assoc_last pairs "timestamp") as [w|].
    + destruct (iso8601_parse w) as [t|]; [|done].
      unfold alloc. intros [= <- <-]. eexists. split; [done|].
      split; [apply lookup_insert_eq | done].
    + unfold alloc. intros [= <- <-]. eexists. split; [done|].
      split; [apply lookup_insert_eq | done].
Qed.

(** *** Members that [read] does not know *)

(** C9: adding members to a JSON object, anywhere among its members, whose
    names are not success, error, timestamp or versionAtEnd and whose values
    mention no timestamp, changes nothing of what [read] does: the same
    [Result] in the same heap, or the same error.  When no member of an
    unknown name mentions a timestamp, what [read] does is determined by the
    members of the four names. *)
Theorem read_ignores_unknown_members (h : heap) :
  (∀ members members',
     adds_unknown members members' →
     read (Doc (JObject members')) h = read (Doc (JObject members)) h) ∧
  (∀ members members',
     Forall (fun m => known_key m.1 = false → mentions_timestamp m.2 = false)
            members →
     Forall (fun m => known_key m.1 = false → mentions_timestamp m.2 = false)
            members' →
     List.filter (fun m => known_key m.1) members' =
       List.filter (fun m => known_key m.1) members →
     read (Doc (JObject members')) h = read (Doc (JObject members)) h).
Proof.
  assert (Hadd : ∀ members members',
    adds_unknown members members' →
    read (Doc (JObject members')) h = read (Doc (JObject members)) h).
  { intros members members' Hadds. rewrite !read_object.
    pose proof (decode_adds_unknown _ _ Hadds) as Hdec.
    destruct (mapM decode_member members) as [pairs|e].
    - destruct Hdec as (pairs' & -> & Hsame). by apply read_pairs_known.
    - by rewrite Hdec. }
  split; [exact Hadd|].
  intros members members' Hm Hm' Hfilter.
  rewrite (Hadd _ _ (adds_unknown_filter _ Hm)).
  rewrite (Hadd _ _ (adds_unknown_filter _ Hm')).
  by rewrite Hfilter.
Qed.

(** *** The heap after [write] *)

(** C10: [write] leaves the [Result] it is given as it was, whether it
    returns or raises: the fields of the object at [result] have the same
    values after the call, and so has every other object that existed before
    the call.  The only change of the heap is the new dict. *)
Theorem write_leaves_result_unchanged (h : heap) result r out h' :
  h !! result = Some (OResult r) →
  write result h = (out, h') →
  h' !! result = Some (OResult r) ∧
  (∀ l o, h !! l = Some o → h' !! l = Some o) ∧
  h !! fresh (dom h) = None ∧
  h' = <[fresh (dom h) := ODict (result_dict_of r)]> h.
Proof.
  intros Hres. rewrite (write_run _ _ _ Hres). intros [= _ <-].
  assert (Hkeep : ∀ l o, h !! l = Some o →
            <[fresh (dom h) := ODict (result_dict_of r)]> h !! l = Some o).
  { intros l o Hl. rewrite lookup_insert_ne; [done|].
    apply not_eq_sym. by eapply fresh_dom_ne. }
  split; [by apply Hkeep|]. split; [exact Hkeep|]. split; [|done].
  apply not_elem_of_dom, is_fresh.
Qed.

(** *** Further properties *)

(** A well-formed document that is not an object is never read as a
    [Result]: [read] raises, and when no timestamp inside the document is
    rejected, the error is the [AttributeError] of [raw_result.get]. *)
Theorem read_raises_for_other_documents (h : heap) j :
  (∀ members, j ≠ JObject members) →
  ∃ e, read (Doc j) h = (Raises e, h) ∧
       ((∀ e', ¬ rejects_timestamp j e') → ∃ msg, e = AttributeError msg).
Proof.
  intros Hj. destruct j as [|b|n|x|s|items|members];
    try (eexists; split; [reflexivity | by eauto]).
  - unfold read, bind, call, json_load. rewrite json_decode_array.
    destruct (mapM _ items) as [vs|e] eqn:Hitems; simpl.
    + eexists. split; [reflexivity | by eauto].
    + exists e. split; [done|]. intros Hok. destruct (Hok e).
      apply decode_raises_rejects. by rewrite json_decode_array, Hitems.
  - by destruct (Hj members).
Qed.

(** When [iso8601.to_string] raises for the timestamp of a [Result], [write]
    raises the same error. *)
Theorem write_raises_error_of_to_string (h : heap) result b e dt v err :
  h !! result =
    Some (OResult (mkResult (PBool b) (PStr e) (PDatetime dt) (PStr v))) →
  iso8601_to_string dt = Raises err →
  ∃ h', write result h = (Raises err, h').
Proof.
  intros Hres Hts. eexists.
  rewrite (write_run _ _ _ Hres), json_dump_result_dict. simpl.
  rewrite Hts. reflexivity.
Qed.

(** In the [Result] that [read] returns for a JSON object, the fields
    success, error and version_at_end hold the decoded value of the last
    member of their name, whatever its type, and the field timestamp holds
    what [iso8601.parse] returned for the decoded value of the last member
    timestamp. *)
Theorem read_present_fields (h : heap) members result h' :
  read (Doc (JObject members)) h = (Returns result, h') →
  ∃ r, h' !! result = Some (OResult r) ∧
    (∀ j, json_member members "success" = Some j →
          json_decode _ResultDecoder_decode_object j = Returns (success r)) ∧
    (∀ j, json_member members "error" = Some j →
          json_decode _ResultDecoder_decode_object j = Returns (error r)) ∧
    (∀ j, json_member members "timestamp" = Some j →
          ∃ v, json_decode _ResultDecoder_decode_object j = Returns v ∧
               iso8601_parse v = Returns (timestamp r)) ∧
    (∀ j, json_member members "versionAtEnd" = Some j →
          json_decode _ResultDecoder_decode_object j =
            Returns (version_at_end r)).
Proof.
  rewrite read_object.
  destruct (mapM decode_member members) as [pairs|] eqn:Hpairs; [|done].
  assert (Hlast : ∀ name j, json_member members name = Some j →
            ∃ v, json_decode _ResultDecoder_decode_object j = Returns v ∧
                 assoc_last pairs name = Some v).
  { intros name j Hj.
    pose proof (decode_member_last _ _ name Hpairs) as Hl. by rewrite Hj in Hl. }
  unfold read_pairs, field.
  destruct (assoc_last pairs "timestamp") as [w|] eqn:Hw.
  - destruct (iso8601_parse w) as [t|] eqn:Ht; [|done].
    unfold alloc. intros [= <- <-]. eexists. split; [apply lookup_insert_eq|].
    simpl. repeat split; intros j Hj; destruct (Hlast _ _ Hj) as (v & Hv & Hv').
    + by rewrite Hv'.
    + by rewrite Hv'.
    + exists v. split; [done|]. congruence.
    + by rewrite Hv'.
  - unfold alloc. intros [= <- <-]. eexists. split; [apply lookup_insert_eq|].
    simpl. repeat split; intros j Hj; destruct (Hlast _ _ Hj) as (v & Hv & Hv').
    + by rewrite Hv'.
    + by rewrite Hv'.
    + congruence.
    + by rewrite Hv'.
Qed.

(** On a document that mentions no timestamp, [_ResultDecoder] decodes as
    the decoder of [json] without a hook does, and never calls
    [iso8601.parse]. *)
Theorem decode_without_timestamp_is_plain j :
  mentions_timestamp j = false →
  json_decode _ResultDecoder_decode_object j = json_decode keep_object j.
Proof.
  induction j as [| | | | |items IH|members IH] using json_nested_ind;
    intros Hj; try reflexivity.
  - simpl in Hj. rewrite json_decode_array.
    change (json_decode keep_object (JArray items))
      with (let* values := mapM (json_decode keep_object) items in
            Returns (PList values)).
    replace (mapM (json_decode _ResultDecoder_decode_object) items)
      with (mapM (json_decode keep_object) items); [done|].
    induction IH as [|j items Hj' _ IHitems]; [done|].
    simpl in Hj. apply orb_false_iff in Hj as [Hj1 Hj2].
    rewrite !mapM_cons, (Hj' Hj1), (IHitems Hj2). done.
  - simpl in Hj. rewrite json_decode_object.
    change (json_decode keep_object (JObject members))
      with (let* pairs :=
              mapM (fun m => let* v := json_decode keep_object m.2 in
                             Returns (m.1, v)) members in
            keep_object (dict_of_pairs pairs)).
    replace (mapM decode_member members)
      with (mapM (fun m => let* v := json_decode keep_object m.2 in
                           Returns (m.1, v)) members).
    2:{ induction IH as [|[k j] members Hj' _ IHm]; [done|].
        simpl in Hj. apply orb_false_iff in Hj as [Hj1 Hj2].
        apply orb_false_iff in Hj1 as [_ Hj1].
        rewrite !mapM_cons, (IHm Hj2). unfold decode_member. simpl in *.
        by rewrite (Hj' Hj1). }
    destruct (mapM _ members) as [pairs|] eqn:Hpairs; simpl; [|done].
    unfold _ResultDecoder_decode_object, keep_object.
    rewrite dict_get_of_pairs.
    replace (assoc_last pairs "timestamp") with (@None pyval); [done|].
    symmetry. apply assoc_last_None.
    assert (pairs.*1 = members.*1) as ->.
    { clear -Hpairs. revert pairs Hpairs.
      induction members as [|[k j] members IHm]; intros pairs.
      - by intros [= <-].
      - rewrite mapM_cons. simpl.
        destruct (json_decode keep_object j); simpl; [|done].
        destruct (mapM _ members) as [ps|]; simpl; [|done].
        intros [= <-]. simpl. f_equal. by apply IHm. }
    clear -Hj. induction members as [|[k j] members IHm].
    + apply not_elem_of_nil.
    + simpl in *. apply orb_false_iff in Hj as [Hj1 Hj2].
      apply orb_false_iff in Hj1 as [Hk _].
      apply not_elem_of_cons. split; [|by apply IHm].
      intros <-. simpl in Hk. done.
Qed.

(** *** Values at any depth *)


Lemma mapM_Forall2 {A B} (f : A → outcome B) l ys :
  mapM f l = Returns ys ↔ Forall2 (fun x y => f x = Returns y) l ys.
Proof.
  revert ys. induction l as [|x l IH]; intros ys.
  - split; [intros [= <-]; constructor | by inversion 1].
  - rewrite mapM_cons. split.
    + destruct (f x) as [y|] eqn:Hx; simpl; [|done].
      destruct (mapM f l) as [ys'|]; simpl; [|done].
      intros [= <-]. constructor; [done | by apply IH].
    + inversion 1 as [|? y ? ys' Hx Hl]; subst. rewrite Hx. simpl.
      apply IH in Hl. by rewrite Hl.
Qed.

Lemma json_encode_list items :
  json_encode _ResultEncoder_default (PList items) =
  let* js := mapM (json_encode _ResultEncoder_default) items in
  Returns (JArray js).
Proof. reflexivity. Qed.

(** What the encoder does with one item of a dict. *)
Lemma json_encode_dict items :
  json_encode _ResultEncoder_default (PDict items) =
  let* members :=
    mapM (fun kv => let* j := json_encode _ResultEncoder_default kv.2 in
                    Returns (kv.1, j)) items in
  Returns (JObject members).
Proof. reflexivity. Qed.

Lemma dict_set_Forall (Q : pyval → Prop) d key value :
  Forall (fun kv => kv.1 ≠ key → Q kv.2) d →
  Forall (fun kv => kv.1 ≠ key → Q kv.2) (dict_set d key value).
Proof.
  induction 1 as [|[k v] d Hkv Hd IH]; simpl.
  - by constructor.
  - destruct (String.eqb_spec k key) as [->|Hk]; constructor; done.
Qed.

Lemma dict_set_Forall_all (Q : pyval → Prop) d key value :
  Q value → Forall (fun kv => Q kv.2) d →
  Forall (fun kv => Q kv.2) (dict_set d key value).
Proof.
  intros Hvalue. induction 1 as [|[k v] d Hkv Hd IH]; simpl.
  - by repeat constructor.
  - destruct (String.eqb k key); constructor; done.
Qed.

Lemma dict_of_pairs_Forall (Q : pyval → Prop) pairs :
  Forall (fun kv => Q kv.2) pairs →
  Forall (fun kv => Q kv.2) (dict_of_pairs pairs).
Proof.
  unfold dict_of_pairs. intros Hpairs.
  assert (Hd : Forall (fun kv : string * pyval => Q kv.2) []) by constructor.
  revert Hd. generalize (@nil (string * pyval)).
  induction Hpairs as [|[k v] pairs Hkv _ IH]; intros d Hd; [done|].
  simpl. apply IH. by apply dict_set_Forall_all.
Qed.

(** In a value that [json.load] with [_ResultDecoder] returns, every dict
    that has the key timestamp, at any depth and not only at the top, holds
    under it what [iso8601.parse] returned: no timestamp member of the
    document stays a string. *)
Theorem decode_parses_every_timestamp j v :
  json_decode _ResultDecoder_decode_object j = Returns v →
  timestamps_parsed v.
Proof.
  revert v.
  induction j as [|b|n|x|s|items IH|members IH] using json_nested_ind;
    intros v; try (intros [= <-]; constructor).
  - rewrite json_decode_array.
    destruct (mapM _ items) as [vs|] eqn:Hitems; simpl; [|done].
    intros [= <-]. constructor. apply mapM_Forall2 in Hitems.
    induction Hitems as [|j w items vs Hj _ IHitems]; [constructor|].
    apply Forall_cons_1 in IH as [IHj IH]. constructor; auto.
  - rewrite json_decode_object.
    destruct (mapM decode_member members) as [pairs|] eqn:Hpairs; simpl;
      [|done].
    assert (Hvalues : Forall (fun kv => timestamps_parsed kv.2)
                             (dict_of_pairs pairs)).
    { apply dict_of_pairs_Forall. apply mapM_Forall2 in Hpairs.
      induction Hpairs as [|[k j] p members pairs Hj _ IHm]; [constructor|].
      apply Forall_cons_1 in IH as [IHj IH]. constructor; [|auto].
      unfold decode_member in Hj. simpl in *.
      destruct (json_decode _ j) as [w|]; simpl in Hj; [|done].
      injection Hj as <-. by apply IHj. }
    unfold _ResultDecoder_decode_object.
    destruct (dict_get (dict_of_pairs pairs) "timestamp") as [w|] eqn:Hw.
    + destruct (iso8601_parse w) as [t|] eqn:Ht; simpl; [|done].
      intros [= <-]. constructor.
      * apply dict_set_Forall. eapply Forall_impl; [exact Hvalues|]. auto.
      * intros t'. rewrite dict_get_set. simpl. intros [= <-]. by exists w.
    + intros [= <-]. constructor.
      * eapply Forall_impl; [exact Hvalues|]. auto.
      * intros t Ht. congruence.
Qed.

(** *** When [write] raises *)




(** *** Values that come back *)

Lemma dict_set_new d key value :
  key ∉ d.*1 → dict_set d key value = (d ++ [(key, value)])%list.
Proof.
  induction d as [|[k v] d IH]; simpl; [done|].
  intros [Hk Hd]%not_elem_of_cons.
  destruct (String.eqb_spec k key) as [->|_]; [done|]. by rewrite IH.
Qed.

Lemma dict_of_pairs_distinct pairs :
  NoDup pairs.*1 → dict_of_pairs pairs = pairs.
Proof.
  unfold dict_of_pairs.
  assert (Hfold : ∀ d, NoDup ((d ++ pairs)%list).*1 →
            fold_left (fun d kv => dict_set d kv.1 kv.2) pairs d =
              (d ++ pairs)%list).
  { induction pairs as [|[k v] pairs IH]; intros d Hd; simpl.
    - by rewrite app_nil_r.
    - rewrite dict_set_new.
      + rewrite IH; rewrite <- app_assoc; done.
      + rewrite fmap_app in Hd. simpl in Hd.
        apply NoDup_app in Hd as (_ & Hd & _). intros Hin.
        apply (Hd k Hin). by left. }
  intros Hpairs. by apply (Hfold []).
Qed.







(** *** Documents that are written again *)

Lemma encoded_members_keys members pairs :
  Forall2 encoded_member members pairs → pairs.*1 = members.*1.
Proof.
  induction 1 as [|m p members pairs (Hk & _) _ IH]; [done|].
  by rewrite !fmap_cons, Hk, IH.
Qed.

Lemma encoded_members_same members pairs :
  Forall2 encoded_member members pairs → "timestamp" ∉ members.*1 →
  mapM (fun kv => let* j := json_encode _ResultEncoder_default kv.2 in
                  Returns (kv.1, j)) pairs = Returns members.
Proof.
  induction 1 as [|[k j] [k' v] members pairs (Hk & Hv & _) _ IH]; [done|].
  rewrite fmap_cons. intros [Hne Hnot]%not_elem_of_cons. simpl in *. subst k'.
  rewrite ?mapM_cons; simpl. rewrite Hv by done. simpl. by rewrite IH.
Qed.

(** The hook makes the dict that is written as the object. *)
Lemma decode_object_is_written members pairs :
  Forall2 encoded_member members pairs → NoDup members.*1 →
  ∃ v, _ResultDecoder_decode_object pairs = Returns v ∧
       json_encode _ResultEncoder_default v = Returns (JObject members).
Proof.
  intros Hmembers Hnodup. unfold _ResultDecoder_decode_object.
  assert (Hcases :
    match dict_get pairs "timestamp" with
    | Some w =>
        ∃ dt, iso8601_parse w = Returns (PDatetime dt) ∧
          mapM (fun kv => let* j := json_encode _ResultEncoder_default kv.2 in
                          Returns (kv.1, j))
               (dict_set pairs "timestamp" (PDatetime dt)) = Returns members
    | None =>
        mapM (fun kv => let* j := json_encode _ResultEncoder_default kv.2 in
                        Returns (kv.1, j)) pairs = Returns members
    end).
  { induction Hmembers
      as [|[k j] [k' v] members pairs (Hk & Hv & Ht) Hrest IH]; [done|].
    rewrite fmap_cons in Hnodup. simpl in *. subst k'.
    apply NoDup_cons in Hnodup as [Hk Hnodup].
    destruct (String.eqb_spec k "timestamp") as [->|Hne].
    - destruct (Ht eq_refl) as (ts & dt & -> & -> & Hparse & Hwrite).
      exists dt. split; [done|]. rewrite ?mapM_cons; simpl. rewrite Hwrite. simpl.
      by rewrite (encoded_members_same _ _ Hrest).
    - specialize (IH Hnodup).
      destruct (dict_get pairs "timestamp") as [w|].
      + destruct IH as (dt & Hparse & Hrun). exists dt. split; [done|].
        rewrite ?mapM_cons; simpl. rewrite Hv by done. simpl. by rewrite Hrun.
      + rewrite ?mapM_cons; simpl. rewrite Hv by done. simpl. by rewrite IH. }
  destruct (dict_get pairs "timestamp") as [w|].
  - destruct Hcases as (dt & -> & Hrun). eexists. split; [done|].
    by rewrite json_encode_dict, Hrun.
  - eexists. split; [done|]. by rewrite json_encode_dict, Hcases.
Qed.

Lemma decode_then_encode j :
  text_survives j →
  ∃ v, json_decode _ResultDecoder_decode_object j = Returns v ∧
       json_encode _ResultEncoder_default v = Returns j.
Proof.
  induction j as [|b|n|x|s|items IH|members IH] using json_nested_ind;
    intros Hj; try (eexists; split; reflexivity).
  - inversion Hj as [| | | | |? Hitems|]; subst.
    assert (∃ vs, mapM (json_decode _ResultDecoder_decode_object) items =
                    Returns vs ∧
                  mapM (json_encode _ResultEncoder_default) vs = Returns items)
      as (vs & Hdec & Henc).
    { clear Hj. induction IH as [|j items Hj _ IHitems]; [by exists []|].
      apply Forall_cons_1 in Hitems as [Hs Hitems].
      destruct (Hj Hs) as (v & Hv & Hv'), (IHitems Hitems) as (vs & Hvs & Hvs').
      exists (v :: vs). by rewrite !mapM_cons, Hv, Hvs, Hv', Hvs'. }
    exists (PList vs). by rewrite json_decode_array, Hdec, json_encode_list, Henc.
  - inversion Hj as [| | | | | |? Hnodup Hothers Hts]; subst.
    assert (∃ pairs, mapM decode_member members = Returns pairs ∧
                     Forall2 encoded_member members pairs)
      as (pairs & Hdec & Hmembers).
    { clear Hj Hnodup. induction IH as [|[k j] members Hj _ IHm].
      - exists []. split; [done | constructor].
      - apply Forall_cons_1 in Hothers as [Ho Hothers].
        apply Forall_cons_1 in Hts as [Ht Hts].
        destruct (IHm Hothers Hts) as (ps & Hps & Hrest).
        simpl in *. rewrite ?mapM_cons. unfold decode_member at 1. simpl.
        destruct (String.eqb_spec k "timestamp") as [->|Hne].
        + destruct (Ht eq_refl) as (ts & dt & -> & Hparse & Hwrite).
          exists (("timestamp", PStr ts) :: ps). simpl. rewrite Hps.
          split; [done|]. constructor; [|done].
          split; [done|]. split; [done|]. intros _. by exists ts, dt.
        + destruct (Hj (Ho Hne)) as (v & Hv & Hv').
          exists ((k, v) :: ps). rewrite Hv. simpl. rewrite Hps.
          split; [done|]. constructor; [|done].
          split; [done|]. split; [done|]. done. }
    rewrite json_decode_object, Hdec. simpl. rewrite dict_of_pairs_distinct.
    + by apply decode_object_is_written.
    + by rewrite (encoded_members_keys _ _ Hmembers).
Qed.

(** A surviving document is read by [json.load] with [_ResultDecoder] as a
    value that [json.dump] with [_ResultEncoder] writes as the document: the
    encoder undoes the decoder, at any depth. *)
Theorem dump_undoes_load j :
  text_survives j →
  ∃ v, json_load (Doc j) _ResultDecoder_decode_object = Returns v ∧
       json_dump v _ResultEncoder_default = Returns j.
Proof.
  intros Hj. unfold json_dump, json_load. by apply decode_then_encode.
Qed.

(** A JSON object that [read] accepts, whose members success, error and
    versionAtEnd hold surviving values of any type and whose member timestamp
    is a string that [iso8601.to_string] writes for the datetime that
    [iso8601.parse] reads from it, is read by [read] into a [Result] that
    [write] writes as the object of these four members with the values of
    the input; the other members of the input are not written. *)
Theorem read_then_write_preserves_values (h : heap) members js je ts dt jv :
  json_member members "success" = Some js →
  json_member members "error" = Some je →
  json_member members "timestamp" = Some (JString ts) →
  json_member members "versionAtEnd" = Some jv →
  text_survives js → text_survives je → text_survives jv →
  (∀ e', ¬ rejects_timestamp (JObject members) e') →
  iso8601_parse (PStr ts) = Returns (PDatetime dt) →
  iso8601_to_string dt = Returns ts →
  ∃ result h1 h2,
    read (Doc (JObject members)) h = (Returns result, h1) ∧
    write result h1 =
      (Returns (JObject [("success", js); ("error", je);
                         ("timestamp", JString ts); ("versionAtEnd", jv)]),
       h2).
Proof.
  intros Hs He Ht Hv Hss Hse Hsv Hok Hparse Hwrite.
  destruct (read_object_returns members h Hok) as (pairs & Hpairs & _).
  pose proof (decode_member_last _ _ "success" Hpairs) as Ls.
  pose proof (decode_member_last _ _ "error" Hpairs) as Le.
  pose proof (decode_member_last _ _ "timestamp" Hpairs) as Lt.
  pose proof (decode_member_last _ _ "versionAtEnd" Hpairs) as Lv.
  rewrite Hs in Ls. rewrite He in Le. rewrite Ht in Lt. rewrite Hv in Lv.
  destruct Ls as (vs & Hds & Ls), Le as (ve & Hde & Le),
    Lt as (? & [= <-] & Lt), Lv as (vv & Hdv & Lv).
  destruct (decode_then_encode _ Hss) as (vs' & Hds' & Hes).
  destruct (decode_then_encode _ Hse) as (ve' & Hde' & Hee).
  destruct (decode_then_encode _ Hsv) as (vv' & Hdv' & Hev).
  assert (vs' = vs) as -> by congruence.
  assert (ve' = ve) as -> by congruence.
  assert (vv' = vv) as -> by congruence.
  eexists _, _, _. split.
  - rewrite read_object, Hpairs. unfold read_pairs, field.
    rewrite Lt, Hparse, Ls, Le, Lv. simpl. unfold alloc. reflexivity.
  - erewrite write_run; [|apply lookup_insert_eq].
    rewrite json_dump_result_dict. simpl. rewrite Hes, Hee. simpl.
    rewrite Hwrite. simpl. rewrite Hev. simpl. reflexivity.
Qed.

End update_result.



(** ** The timestamp format of the spec *)

Lemma digit_value_digit d : 0 <= d < 10 → iso8601.digit_value (iso8601.digit d) = Some d.
Proof.
  intros Hd.
  assert (d = 0 ∨ d = 1 ∨ d = 2 ∨ d = 3 ∨ d = 4 ∨ d = 5 ∨ d = 6 ∨ d = 7 ∨
          d = 8 ∨ d = 9) as Hcases by lia.
  repeat (destruct Hcases as [->|Hcases]; [reflexivity|]). by subst.
Qed.


Lemma digit_of_digit_value c d :
  iso8601.digit_value c = Some d → iso8601.digit d = c ∧ 0 <= d < 10.
Proof.
  unfold iso8601.digit_value, iso8601.digit.
  destruct (_ && _) eqn:Hrange; [|done]. intros [= <-].
  apply andb_true_iff in Hrange as [?%Z.leb_le ?%Z.leb_le].
  split; [|lia].
  replace (48 + (Z.of_nat (nat_of_ascii c) - 48)) with (Z.of_nat (nat_of_ascii c)) by lia.
  by rewrite Nat2Z.id, ascii_nat_embedding.
Qed.

Lemma number_two c1 c2 :
  iso8601.number [c1; c2] = a ← iso8601.digit_value c1; b ← iso8601.digit_value c2; Some (10 * a + b).
Proof.
  unfold iso8601.number. simpl.
  destruct (iso8601.digit_value c1) as [a|]; [simpl|reflexivity].
  destruct (iso8601.digit_value c2) as [b|]; [simpl|reflexivity]. f_equal; lia.
Qed.
Lemma number_four c1 c2 c3 c4 :
  iso8601.number [c1; c2; c3; c4] =
  a ← iso8601.digit_value c1; b ← iso8601.digit_value c2; c ← iso8601.digit_value c3;
  d ← iso8601.digit_value c4; Some (1000 * a + 100 * b + 10 * c + d).
Proof.
  unfold iso8601.number. simpl.
  destruct (iso8601.digit_value c1) as [a|]; [simpl|reflexivity].
  destruct (iso8601.digit_value c2) as [b|]; [simpl|reflexivity].
  destruct (iso8601.digit_value c3) as [c|]; [simpl|reflexivity].
  destruct (iso8601.digit_value c4) as [d|]; [simpl|reflexivity]. f_equal; lia.
Qed.

Lemma number_two_digits n : 0 <= n < 100 → iso8601.number (iso8601.two_digits n) = Some n.
Proof.
  intros Hn. unfold iso8601.two_digits. rewrite number_two.
  rewrite !digit_value_digit by (apply Z.mod_pos_bound; lia). simpl.
  f_equal. Z.div_mod_to_equations. lia.
Qed.
Lemma number_four_digits n : 0 <= n < 10000 → iso8601.number (iso8601.four_digits n) = Some n.
Proof.
  intros Hn. unfold iso8601.four_digits. rewrite number_four.
  rewrite !digit_value_digit by (apply Z.mod_pos_bound; lia). simpl.
  f_equal. Z.div_mod_to_equations. lia.
Qed.
Lemma two_digits_number c1 c2 n :
  iso8601.number [c1; c2] = Some n → iso8601.two_digits n = [c1; c2] ∧ 0 <= n < 100.
Proof.
  rewrite number_two.
  destruct (iso8601.digit_value c1) as [a|] eqn:Ha; simpl; [|done].
  destruct (iso8601.digit_value c2) as [b|] eqn:Hb; simpl; [|done].
  intros [= <-].
  apply digit_of_digit_value in Ha as [<- ?], Hb as [<- ?].
  split; [|lia]. unfold iso8601.two_digits.
  do 2 f_equal; f_equal; Z.div_mod_to_equations; lia.
Qed.
Lemma four_digits_number c1 c2 c3 c4 n :
  iso8601.number [c1; c2; c3; c4] = Some n →
  iso8601.four_digits n = [c1; c2; c3; c4] ∧ 0 <= n < 10000.
Proof.
  rewrite number_four.
  destruct (iso8601.digit_value c1) as [a|] eqn:Ha; simpl; [|done].
  destruct (iso8601.digit_value c2) as [b|] eqn:Hb; simpl; [|done].
  destruct (iso8601.digit_value c3) as [c|] eqn:Hc; simpl; [|done].
  destruct (iso8601.digit_value c4) as [d|] eqn:Hd; simpl; [|done].
  intros [= <-].
  apply digit_of_digit_value in Ha as [<- ?], Hb as [<- ?], Hc as [<- ?],
    Hd as [<- ?].
  split; [|lia]. unfold iso8601.four_digits.
  do 4 f_equal; f_equal; Z.div_mod_to_equations; lia.
Qed.



Lemma days_in_month_range y m : 28 <= days_in_month y m <= 31.
Proof. unfold days_in_month. repeat case_match; lia. Qed.

(** In the model of [iso8601], [parse] reads what [to_string] writes for an
    aware datetime in UTC with no microseconds as that datetime. *)
Lemma iso8601_parse_to_string dt ts :
  datetime_valid dt = true → microsecond dt = 0 → tzinfo dt = utc →
  iso8601.to_string dt = Returns ts →
  iso8601.parse (PStr ts) = Returns (PDatetime dt).
Proof.
  destruct dt as [y m d hh mm ss us tz].
  unfold datetime_valid, iso8601.to_string.
  cbn [year month day hour minute second microsecond tzinfo].
  intros Hvalid -> -> Hts. injection Hts as <-.
  unfold iso8601.parse, iso8601.parse_text.
  cbn [list_ascii_of_string string_of_list_ascii app iso8601.two_digits
       iso8601.four_digits Ascii.eqb Bool.eqb andb].
  pose proof Hvalid as Hrange.
  repeat (apply andb_true_iff in Hrange as [Hrange ?]).
  pose proof (days_in_month_range y m).
  change (iso8601.number [iso8601.digit ((y `div` 1000) `mod` 10); _; _; _])
    with (iso8601.number (iso8601.four_digits y)).
  change (iso8601.number [iso8601.digit ((?n `div` 10) `mod` 10); _])
    with (iso8601.number (iso8601.two_digits n)).
  rewrite number_four_digits by lia.
  rewrite !number_two_digits by lia.
  cbn [mbind option_bind].
  change (datetime_valid (mkDatetime y m d hh mm ss 0 utc) = true) in Hvalid.
  by rewrite Hvalid.
Qed.

(** In the model of [iso8601], [to_string] writes the datetime that [parse]
    reads from a text as that text, and [parse] returns aware datetimes in
    UTC with no microseconds only. *)
Lemma iso8601_to_string_parse ts dt :
  iso8601.parse (PStr ts) = Returns (PDatetime dt) →
  iso8601.to_string dt = Returns ts ∧
  datetime_valid dt = true ∧ microsecond dt = 0 ∧ tzinfo dt = utc.
Proof.
  unfold iso8601.parse.
  destruct (iso8601.parse_text ts) as [dt'|] eqn:Hparse; [|done].
  intros [= ->]. unfold iso8601.parse_text in Hparse.
  destruct (list_ascii_of_string ts)
    as [|y1 [|y2 [|y3 [|y4 [|c1 [|m1 [|m2 [|c2 [|d1 [|d2 [|c3 [|h1 [|h2
       [|n1 [|n2 [|s1 [|s2 [|c4 [|]]]]]]]]]]]]]]]]]]] eqn:Hts; try done.
  destruct (Ascii.eqb_spec c1 "-") as [->|]; [|done].
  destruct (Ascii.eqb_spec c2 "-") as [->|]; [|done].
  destruct (Ascii.eqb_spec c3 "T") as [->|]; [|done].
  destruct (Ascii.eqb_spec c4 "Z") as [->|]; [|done].
  cbn [andb] in Hparse.
  destruct (iso8601.number [y1; y2; y3; y4]) as [y|] eqn:Hy; [|done].
  destruct (iso8601.number [m1; m2]) as [m|] eqn:Hm; [|done].
  destruct (iso8601.number [d1; d2]) as [d|] eqn:Hd; [|done].
  destruct (iso8601.number [h1; h2]) as [hh|] eqn:Hh; [|done].
  destruct (iso8601.number [n1; n2]) as [mm|] eqn:Hn; [|done].
  destruct (iso8601.number [s1; s2]) as [ss|] eqn:Hs; [|done].
  cbn [mbind option_bind] in Hparse.
  destruct (datetime_valid _) eqn:Hvalid; [|done].
  injection Hparse as <-. split; [|done].
  unfold iso8601.to_string. cbn [year month day hour minute second].
  apply four_digits_number in Hy as [-> _].
  apply two_digits_number in Hm as [-> _], Hd as [-> _], Hh as [-> _],
    Hn as [-> _], Hs as [-> _].
  cbn [app]. by rewrite <- Hts, string_of_list_ascii_of_string.
Qed.


(** ** The example of the docstring, with the format of the spec *)

Lemma parse_example :
  iso8601.parse (PStr "2021-02-10T085735Z") = Returns (PDatetime example_datetime).
Proof. vm_compute. reflexivity. Qed.

Lemma to_string_example :
  iso8601.to_string example_datetime = Returns "2021-02-10T085735Z".
Proof. vm_compute. reflexivity. Qed.

(** The example is the instant 1612947455 seconds after the epoch. *)
Lemma utcfromtimestamp_example :
  utcfromtimestamp 1612947455 = Returns (mkDatetime 2021 2 10 8 57 35 0 None).
Proof. vm_compute. reflexivity. Qed.

Lemma read_example_run :
  read iso8601.parse (Doc example_doc) ∅ =
  (Returns 1%positive, {[ 1%positive := OResult example_result ]}).
Proof. vm_compute. reflexivity. Qed.

Lemma example_doc_accepted e : ¬ rejects_timestamp iso8601.parse example_doc e.
Proof. eapply read_returns_not_rejected, read_example_run. Qed.

(** C5: the file of the docstring is read as the [Result] with success
    [True], the empty error, the timestamp 2021-02-10 08:57:35 in UTC and
    the version 1.4.2. *)
Theorem read_example (h : heap) :
  ∃ result h',
    read iso8601.parse
      (Doc (JObject [("success", JBool true); ("error", JString "");
                     ("timestamp", JString "2021-02-10T085735Z");
                     ("versionAtEnd", JString "1.4.2")])) h =
      (Returns result, h') ∧
    h' !! result =
      Some (OResult (mkResult (PBool true) (PStr "")
                              (PDatetime (mkDatetime 2021 2 10 8 57 35 0 utc))
                              (PStr "1.4.2"))).
Proof.
  eexists _, _. split.
  - rewrite read_object.
    change (mapM (decode_member iso8601.parse) _)
      with (Returns [("success", PBool true); ("error", PStr "");
                     ("timestamp", PStr "2021-02-10T085735Z");
                     ("versionAtEnd", PStr "1.4.2")]).
    unfold read_pairs, field.
    change (assoc_last _ "timestamp")
      with (Some (PStr "2021-02-10T085735Z")).
    lazy beta iota. rewrite parse_example. unfold alloc. reflexivity.
  - apply lookup_insert_eq.
Qed.

(** C6: the [Result] of the example is written as an object that has the
    version under the name versionAtEnd and not under version_at_end, and
    the timestamp as the string 2021-02-10T085735Z. *)
Theorem write_example (h : heap) result :
  h !! result =
    Some (OResult (mkResult (PBool true) (PStr "")
                            (PDatetime (mkDatetime 2021 2 10 8 57 35 0 utc))
                            (PStr "1.4.2"))) →
  ∃ members h',
    write iso8601.to_string result h = (Returns (JObject members), h') ∧
    json_member members "versionAtEnd" = Some (JString "1.4.2") ∧
    json_member members "version_at_end" = None ∧
    json_member members "timestamp" = Some (JString "2021-02-10T085735Z") ∧
    members = [("success", JBool true); ("error", JString "");
               ("timestamp", JString "2021-02-10T085735Z");
               ("versionAtEnd", JString "1.4.2")].
Proof.
  intros Hres. eexists _, _. split.
  - rewrite (write_run _ _ _ _ Hres), json_dump_result_dict.
    cbn [json_encode _ResultEncoder_default success error timestamp
         version_at_end outcome_bind].
    change (mkDatetime 2021 2 10 8 57 35 0 utc) with example_datetime.
    rewrite to_string_example. reflexivity.
  - done.
Qed.

Lemma write_example_witness :
  ∃ members h',
    write iso8601.to_string 1%positive example_heap =
      (Returns (JObject members), h') ∧
    json_member members "versionAtEnd" = Some (JString "1.4.2") ∧
    json_member members "version_at_end" = None ∧
    json_member members "timestamp" = Some (JString "2021-02-10T085735Z") ∧
    members = [("success", JBool true); ("error", JString "");
               ("timestamp", JString "2021-02-10T085735Z");
               ("versionAtEnd", JString "1.4.2")].
Proof. apply (write_example example_heap 1%positive). reflexivity. Defined.

(** ** Instances of the statements *)


Lemma read_then_write_preserves_fields_witness :
  ∃ result h1 h2,
    read iso8601.parse (Doc example_doc) ∅ = (Returns result, h1) ∧
    write iso8601.to_string result h1 = (Returns example_doc, h2).
Proof.
  apply (read_then_write_preserves_fields iso8601.parse iso8601.to_string ∅
           _ true "" "2021-02-10T085735Z" example_datetime "1.4.2");
    try reflexivity.
  exact example_doc_accepted.
Defined.

Lemma write_renames_version_at_end_witness :
  ∃ members jv,
    JObject [("success", JBool true); ("error", JString "");
             ("timestamp", JString "2021-02-10T085735Z");
             ("versionAtEnd", JString "1.4.2")] = JObject members ∧
    members.*1 = ["success"; "error"; "timestamp"; "versionAtEnd"] ∧
    json_member members "versionAtEnd" = Some jv ∧
    json_encode (_ResultEncoder_default iso8601.to_string) (PStr "1.4.2") =
      Returns jv ∧
    (∀ v, PStr "1.4.2" = PStr v → jv = JString v) ∧
    json_member members "version_at_end" = None.
Proof.
  apply (write_renames_version_at_end iso8601.to_string example_heap 1%positive
           example_result _
           (<[2%positive := ODict (result_dict_of example_result)]> example_heap));
    reflexivity.
Defined.

Lemma write_leaves_result_unchanged_witness :
  let h' := <[2%positive := ODict (result_dict_of example_result)]> example_heap in
  h' !! 1%positive = Some (OResult example_result) ∧
  (∀ l o, example_heap !! l = Some o → h' !! l = Some o) ∧
  example_heap !! fresh (dom example_heap) = None ∧
  h' = <[fresh (dom example_heap) := ODict (result_dict_of example_result)]>
         example_heap.
Proof.
  apply (write_leaves_result_unchanged iso8601.to_string example_heap 1%positive
           example_result (Returns example_doc)); reflexivity.
Defined.

(** C4: the claim as the spec has it is refuted by a document that is
    well-formed JSON and has no timestamp at all, the empty array: [read]
    raises [AttributeError] for it, from [raw_result.get]. *)
Lemma read_array_raises_AttributeError :
  read iso8601.parse (Doc (JArray [])) ∅ =
    (Raises (AttributeError "'list' object has no attribute 'get'"), ∅) ∧
  mentions_timestamp (JArray []) = false ∧
  (∀ e, ¬ rejects_timestamp iso8601.parse (JArray []) e).
Proof.
  split; [reflexivity|]. split; [reflexivity|].
  intros e He. inversion He as [|items j e' Hin|]; subst.
  by apply elem_of_nil in Hin.
Qed.


Lemma read_success_only_run :
  read iso8601.parse (Doc (JObject [("success", JBool true)])) ∅ =
  (Returns 1%positive,
   {[ 1%positive :=
        OResult (mkResult (PBool true) (PStr "") (PDatetime epoch) (PStr "")) ]}).
Proof. vm_compute. reflexivity. Qed.

Lemma read_defaults_absent_fields_witness :
  ∃ r,
    ({[ 1%positive :=
          OResult (mkResult (PBool true) (PStr "") (PDatetime epoch) (PStr "")) ]}
       : heap) !! 1%positive = Some (OResult r) ∧
    error r = PStr "" ∧ timestamp r = PDatetime epoch ∧
    version_at_end r = PStr "".
Proof.
  destruct (read_defaults_absent_fields iso8601.parse ∅ [("success", JBool true)])
    as [Habsent _].
  destruct (Habsent _ _ read_success_only_run) as (r & Hr & _ & He & Ht & Hv).
  exists r. split; [exact Hr|].
  split; [apply He | split; [apply Ht | apply Hv]];
    by intros [=]%list_elem_of_singleton.
Defined.

Lemma read_yesterday_run :
  read iso8601.parse (Doc (JObject [("timestamp", JString "yesterday")])) ∅ =
  (Raises (ValueError "Invalid ISO-8601 timestamp: yesterday"), ∅).
Proof. vm_compute. reflexivity. Qed.

(** On the text that breaks off, [read] raises the error of the timestamp
    parser and not the one of the JSON decoder. *)
Lemma read_broken_text_run :
  read iso8601.parse (Malformed broken_parsed broken_text) ∅ =
  (Raises (ValueError "Invalid ISO-8601 timestamp: yesterday"), ∅).
Proof. vm_compute. reflexivity. Qed.

Lemma read_raises_for_timestamps_only_witness :
  rejects_timestamp iso8601.parse
    (JObject [("timestamp", JString "yesterday")])
    (ValueError "Invalid ISO-8601 timestamp: yesterday") ∧
  (∃ v, iso8601.parse v =
        Raises (ValueError "Invalid ISO-8601 timestamp: yesterday")) ∧
  ∃ e, read iso8601.parse (Malformed broken_parsed broken_text) ∅ =
         (Raises e, ∅) ∧
       ∃ j, j ∈ broken_parsed ∧ rejects_timestamp iso8601.parse j e.
Proof.
  destruct (read_raises_for_timestamps_only iso8601.parse ∅)
    as (Hmalformed & _ & Hraise & _).
  destruct (Hraise _ _ _ read_yesterday_run) as (Hrej & Hparser & _).
  split; [exact Hrej|]. split; [exact Hparser|].
  destruct (Hmalformed broken_parsed broken_text) as (e & Hread & _ & Hsome).
  exists e. split; [exact Hread|].
  destruct Hsome as (j & Hin & Hj & _).
  - eexists _, _. split; [apply list_elem_of_here | exact Hrej].
  - by exists j.
Defined.

Lemma read_failed_doc_run :
  read iso8601.parse (Doc (JObject failed_doc)) ∅ =
  (Returns 1%positive,
   {[ 1%positive :=
        OResult (mkResult (PBool true) (PStr "disk full")
                          (PDatetime example_datetime) (PStr "1.4.2")) ]}).
Proof. vm_compute. reflexivity. Qed.

Lemma success_with_error_is_accepted_witness :
  ∃ result h' r,
    read iso8601.parse (Doc (JObject failed_doc)) ∅ = (Returns result, h') ∧
    h' !! result = Some (OResult r) ∧
    success r = PBool true ∧ error r = PStr "disk full".
Proof.
  apply (proj2 (success_with_error_is_accepted iso8601.parse iso8601.to_string ∅)
           failed_doc "disk full"); [done | reflexivity | reflexivity |].
  intros e'. eapply read_returns_not_rejected, read_failed_doc_run.
Defined.

Lemma read_ignores_unknown_members_witness :
  read iso8601.parse (Doc (JObject failed_doc)) ∅ =
  read iso8601.parse
    (Doc (JObject [("success", JBool true); ("error", JString "disk full");
                   ("timestamp", JString "2021-02-10T085735Z");
                   ("versionAtEnd", JString "1.4.2")])) ∅.
Proof.
  apply (proj1 (read_ignores_unknown_members iso8601.parse ∅)).
  do 4 apply adds_after. apply adds_member; [reflexivity | reflexivity |].
  apply adds_nothing.
Defined.

Lemma read_raises_for_other_documents_witness :
  ∃ e, read iso8601.parse (Doc (JString "done")) ∅ = (Raises e, ∅) ∧
       ((∀ e', ¬ rejects_timestamp iso8601.parse (JString "done") e') →
        ∃ msg, e = AttributeError msg).
Proof. by apply (read_raises_for_other_documents iso8601.parse ∅). Defined.

Lemma write_raises_error_of_to_string_witness :
  ∃ h', write (fun _ => Raises (ValueError "year out of range")) 1%positive
          example_heap =
        (Raises (ValueError "year out of range"), h').
Proof.
  apply (write_raises_error_of_to_string
           (fun _ => Raises (ValueError "year out of range")) example_heap
           1%positive true "" example_datetime "1.4.2"); reflexivity.
Defined.

(** ** Instances of the further properties *)

Lemma read_present_fields_witness :
  ∃ r,
    ({[ 1%positive :=
          OResult (mkResult (PBool true) (PStr "disk full")
                            (PDatetime example_datetime) (PStr "1.4.2")) ]}
       : heap) !! 1%positive = Some (OResult r) ∧
    Returns (PStr "disk full") = Returns (error r) ∧
    ∃ v, Returns (PStr "2021-02-10T085735Z") = Returns v ∧
         iso8601.parse v = Returns (timestamp r).
Proof.
  destruct (read_present_fields iso8601.parse ∅ failed_doc _ _
              read_failed_doc_run) as (r & Hr & _ & He & Ht & _).
  exists r. split; [exact Hr|].
  split; [exact (He _ eq_refl) | exact (Ht _ eq_refl)].
Defined.

Lemma decode_without_timestamp_is_plain_witness :
  json_decode (_ResultDecoder_decode_object iso8601.parse)
    (JObject [("host", JString "pilot"); ("tries", JArray [JInt 1; JInt 2])]) =
  json_decode keep_object
    (JObject [("host", JString "pilot"); ("tries", JArray [JInt 1; JInt 2])]).
Proof.
  apply (decode_without_timestamp_is_plain iso8601.parse). reflexivity.
Defined.

Lemma decode_parses_every_timestamp_witness :
  timestamps_parsed iso8601.parse nested_value.
Proof.
  apply (decode_parses_every_timestamp iso8601.parse nested_doc).
  vm_compute. reflexivity.
Defined.




Lemma nested_doc_survives :
  text_survives iso8601.parse iso8601.to_string nested_doc.
Proof.
  apply text_object.
  - by apply (bool_decide_unpack _).
  - apply Forall_cons_2; [|apply Forall_nil_2]. intros _. apply text_object.
    + by apply (bool_decide_unpack _).
    + apply Forall_cons_2; [done|].
      apply Forall_cons_2; [|apply Forall_nil_2]. intros _.
      apply text_array.
      apply Forall_cons_2; [apply text_int|].
      apply Forall_cons_2; [apply text_int | apply Forall_nil_2].
    + apply Forall_cons_2.
      * intros _. exists "2021-02-10T085735Z", example_datetime.
        split; [done|]. split; [apply parse_example | apply to_string_example].
      * apply Forall_cons_2; [done | apply Forall_nil_2].
  - apply Forall_cons_2; [done | apply Forall_nil_2].
Qed.

Lemma dump_undoes_load_witness :
  ∃ v, json_load (Doc nested_doc) (_ResultDecoder_decode_object iso8601.parse) =
         Returns v ∧
       json_dump v (_ResultEncoder_default iso8601.to_string) =
         Returns nested_doc.
Proof.
  exact (dump_undoes_load iso8601.parse iso8601.to_string nested_doc
           nested_doc_survives).
Defined.



Lemma untyped_doc_survives :
  text_survives iso8601.parse iso8601.to_string JNull ∧
  text_survives iso8601.parse iso8601.to_string
    (JArray [JString "no space"; JString "retry"]) ∧
  text_survives iso8601.parse iso8601.to_string
    (JObject [("major", JInt 1); ("minor", JInt 4)]).
Proof.
  split; [apply text_null|]. split.
  - apply text_array.
    apply Forall_cons_2; [apply text_string|].
    apply Forall_cons_2; [apply text_string | apply Forall_nil_2].
  - apply text_object.
    + by apply (bool_decide_unpack _).
    + apply Forall_cons_2; [intros _; apply text_int|].
      apply Forall_cons_2; [intros _; apply text_int | apply Forall_nil_2].
    + apply Forall_cons_2; [done|].
      apply Forall_cons_2; [done | apply Forall_nil_2].
Qed.

Lemma read_untyped_doc_run :
  read iso8601.parse (Doc (JObject untyped_doc)) ∅ =
  (Returns 1%positive, {[ 1%positive := OResult untyped_result ]}).
Proof. vm_compute. reflexivity. Qed.

Lemma read_then_write_preserves_values_witness :
  ∃ result h1 h2,
    read iso8601.parse (Doc (JObject untyped_doc)) ∅ = (Returns result, h1) ∧
    write iso8601.to_string result h1 =
      (Returns (JObject [("success", JNull);
                         ("error", JArray [JString "no space"; JString "retry"]);
                         ("timestamp", JString "2021-02-10T085735Z");
                         ("versionAtEnd",
                          JObject [("major", JInt 1); ("minor", JInt 4)])]),
       h2).
Proof.
  destruct untyped_doc_survives as (Hs & He & Hv).
  apply (read_then_write_preserves_values iso8601.parse iso8601.to_string ∅
           untyped_doc _ _ "2021-02-10T085735Z" example_datetime _);
    try done.
  intros e'. eapply read_returns_not_rejected, read_untyped_doc_run.
Defined.
